(** * Update reconciliation of the ControlPlaneMachineSet operator

    A shallow embedding of [pkg/controllers/controlplanemachineset/updates.go]
    (both revisions of the file that are part of the source tree) and the
    properties of the rolling-update engine that its specification states.

    Go values are modelled as follows:
    - [int] and [int32] are [Z]; the conversion [int32(x)] is written out
      as a wrap-around ([int32]);
    - [map[int32][]MachineInfo] is a [gmap Z (list MachineInfo)]; looking up
      an absent key yields the nil slice, which is [[]];
    - a pointer that may be nil ([*int32], [*metav1.Time], [*ObjectRef]) is
      an [option];
    - the machine provider is an interface, here a type class over the
      provider's state; every call made through it is recorded in the
      world's call trace;
    - a nil-pointer dereference is the outcome [Panicked]. *)

From Stdlib Require Import ZArith.
From stdpp Require Import gmap strings list fin_maps sorting pretty.

Local Open Scope Z_scope.
Local Open Scope string_scope.

(** ** Go runtime: errors, integer conversion *)

Inductive error : Type :=
| errors_New (text : string)
| fmt_Errorf_w (text : string) (wrapped : error).

(** [err.Error()] *)
Definition Error (e : error) : string :=
  match e with
  | errors_New t => t
  | fmt_Errorf_w t _ => t
  end.

(** [int32(x)] for an [int] x: two's complement truncation. *)
Definition int32 (x : Z) : Z := (x + 2 ^ 31) `mod` 2 ^ 32 - 2 ^ 31.

(** The verb [%q] on a string without characters that need escaping. *)
Definition strconv_Quote (s : string) : string :=
  let dq := String (Ascii.ascii_of_nat 34) EmptyString in
  dq +:+ s +:+ dq.

(** ** logr *)

Inductive LogValue : Type :=
| LStr (s : string)
| LInt (z : Z).

Record Logger : Type := mkLogger {
  level : Z;
  values : list (string * LogValue)
}.

Definition WithValues (l : Logger) (kvs : list (string * LogValue)) : Logger :=
  {| level := level l; values := values l ++ kvs |}.

Definition V (n : Z) (l : Logger) : Logger :=
  {| level := level l + n; values := values l |}.

Record LogLine : Type := mkLogLine {
  line_logger : Logger;
  line_err : option error;
  line_msg : string
}.

(** The value last bound to a key of a logger, e.g. its ["index"]. *)
Definition logger_value (key : string) (l : Logger) : option LogValue :=
  (last (filter (λ kv, kv.1 = key) (values l))) ≫= (λ kv, Some kv.2).

(** ** metav1 *)

Module metav1.
Record ObjectMeta : Type := mkObjectMeta {
    Name : string;
    Namespace : string;
    DeletionTimestamp : option Z
  }.

Inductive ConditionStatus : Type := ConditionTrue | ConditionFalse | ConditionUnknown.

Record Condition : Type := mkCondition {
    Type_ : string;
    Status : ConditionStatus;
    Reason : string;
    Message : string
  }.
End metav1.

(** ** ctrl (controller-runtime) *)

Module ctrl.
Record Result : Type := mkResult {
    Requeue : bool;
    RequeueAfter : Z
  }.

  (** [ctrl.Result{}] *)
Definition zero : Result := {| Requeue := false; RequeueAfter := 0 |}.
End ctrl.

(** ** machinev1 (openshift/api) *)

Module machinev1.
  (** [ControlPlaneMachineSetStrategyType] is a string type. *)
Definition RollingUpdate : string := "RollingUpdate".
Definition OnDelete : string := "OnDelete".
Definition Recreate : string := "Recreate".

Record ControlPlaneMachineSetStrategy : Type := mkStrategy {
    Type_ : string
  }.

Record ControlPlaneMachineSetSpec : Type := mkSpec {
    Replicas : option Z;
    Strategy : ControlPlaneMachineSetStrategy
  }.

Record ControlPlaneMachineSetStatus : Type := mkStatus {
    Conditions : list metav1.Condition
  }.

Record ControlPlaneMachineSet : Type := mkCPMS {
    Spec : ControlPlaneMachineSetSpec;
    Status : ControlPlaneMachineSetStatus
  }.
End machinev1.

(** ** machineproviders *)

Module machineproviders.
Record ObjectRef : Type := mkObjectRef {
    ObjectMeta : metav1.ObjectMeta
  }.

  (** [MachineRef] is a pointer: [None] is nil. *)
Record MachineInfo : Type := mkMachineInfo {
    MachineRef : option ObjectRef;
    Ready : bool;
    NeedsUpdate : bool;
    Index : Z
  }.

  (** The two operations of the [MachineProvider] interface that the update
      engine uses.  [P] is the provider's own state; an operation returns
      the error it reports, if any. *)
Class MachineProvider (P : Type) : Type := {
    CreateMachine : P → Logger → Z → P * option error;
    DeleteMachine : P → Logger → option ObjectRef → P * option error
  }.
End machineproviders.

(** ** The world an invocation runs in *)

Inductive Call : Type :=
| CallCreateMachine (logger : Logger) (index : Z)
| CallDeleteMachine (logger : Logger)
    (machineRef : option machineproviders.ObjectRef).

Record World (P : Type) : Type := mkWorld {
  provider : P;
  calls : list Call;
  logs : list LogLine
}.
Arguments mkWorld {P} _ _ _.
Arguments provider {P} _.
Arguments calls {P} _.
Arguments logs {P} _.

Inductive Outcome (A : Type) : Type :=
| Returned (a : A)
| Panicked.
Arguments Returned {A} _.
Arguments Panicked {A}.

(** Computations of the reconciler: a state monad over the world, with
    panics. *)
Definition M (P A : Type) : Type := World P → Outcome A * World P.

Definition ret {P A} (a : A) : M P A := λ w, (Returned a, w).

Definition bind {P A B} (m : M P A) (k : A → M P B) : M P B :=
  λ w, match m w with
       | (Returned a, w') => k a w'
       | (Panicked, w') => (Panicked, w')
       end.

Definition panic {P A} : M P A := λ w, (Panicked, w).

Declare Scope go_scope.
Delimit Scope go_scope with go.
Notation "x <- c1 ;; c2" := (bind c1 (λ x, c2))
  (at level 100, c1 at next level, right associativity) : go_scope.
Notation "c1 ;;; c2" := (bind c1 (λ _, c2))
  (at level 100, right associativity) : go_scope.

(** [logger.Info(msg)] and [logger.Error(err, msg)] *)
Definition Info {P} (l : Logger) (msg : string) : M P unit :=
  λ w, (Returned tt,
        mkWorld (provider w) (calls w) (logs w ++ [mkLogLine l None msg])).

Definition LogError {P} (l : Logger) (err : error) (msg : string) : M P unit :=
  λ w, (Returned tt,
        mkWorld (provider w) (calls w) (logs w ++ [mkLogLine l (Some err) msg])).

(** ** meta.SetStatusCondition *)

Module meta.
Definition FindStatusCondition (conditions : list metav1.Condition) (ty : string)
    : option metav1.Condition :=
    head (filter (λ c, metav1.Type_ c = ty) conditions).

  (** Modelled from the spec: the degraded reporter of section 4.7, whose
      code (the apimachinery helper) is not part of the source tree.  It
      sets the condition, replacing the existing condition of the same
      type if there is one; time stamps are left out. *)
Fixpoint SetStatusCondition (conditions : list metav1.Condition)
      (newCondition : metav1.Condition) : list metav1.Condition :=
    match conditions with
    | [] => [newCondition]
    | c :: rest =>
        if decide (metav1.Type_ c = metav1.Type_ newCondition)
        then newCondition :: rest
        else c :: SetStatusCondition rest newCondition
    end.
End meta.

(** ** Package controlplanemachineset: updates.go *)

Module controlplanemachineset.
Import machineproviders.

Record ControlPlaneMachineSetReconciler : Type := mkReconciler {
    Namespace : string
  }.

Definition createdReplacement : string := "Created replacement machine".
Definition errorCreatingMachine : string := "Error creating machine".
Definition errorDeletingMachine : string := "Error deleting machine".
Definition invalidStrategyMessage : string := "invalid value for spec.strategy.type".
Definition machineRequiresUpdate : string :=
    "Machine requires an update, delete the machine to trigger a replacement".
Definition noUpdatesRequired : string := "No updates required".
Definition removingOldMachine : string := "Removing old machine".
Definition waitingForReady : string := "Waiting for machine to become ready".
Definition waitingForRemoved : string := "Waiting for machine to be removed".
Definition waitingForReplacement : string :=
    "Waiting for replacement machine to become ready".

Definition errRecreateStrategyNotSupported : error :=
    errors_New ("update strategy " +:+ strconv_Quote machinev1.Recreate +:+ " is not supported").
Definition errReplicasRequired : error :=
    errors_New "spec.replicas is unset: replicas is required".
Definition errUnknownStrategy : error := errors_New "unknown update strategy".

  (** Modelled from the spec: the condition type and reason of section 4.4,
      constants of this package that are declared outside updates.go. *)
Definition conditionDegraded : string := "Degraded".
Definition reasonInvalidStrategy : string := "InvalidStrategy".

  (** [isDeletedMachine]; [None] is the dereference of a nil
      [m.MachineRef]. *)
Definition isDeletedMachine (m : MachineInfo) : option bool :=
    match MachineRef m with
    | None => None
    | Some ref =>
        Some (bool_decide (metav1.DeletionTimestamp (ObjectMeta ref) ≠ None))
    end.

  (** The classifiers: each appends the matching elements in input order. *)
Definition needUpdateMachines (machinesInfo : list MachineInfo) : list MachineInfo :=
    List.filter (λ m, NeedsUpdate m) machinesInfo.

Definition pendingMachines (machinesInfo : list MachineInfo) : list MachineInfo :=
    List.filter (λ m, negb (Ready m) && negb (NeedsUpdate m)) machinesInfo.

Definition updatedMachines (machinesInfo : list MachineInfo) : list MachineInfo :=
    List.filter (λ m, Ready m && negb (NeedsUpdate m)) machinesInfo.

Definition readyMachines (machinesInfo : list MachineInfo) : list MachineInfo :=
    List.filter (λ m, Ready m) machinesInfo.

Definition hasAny (machinesInfo : list MachineInfo) : bool :=
    bool_decide (0 < Z.of_nat (length machinesInfo)).

Definition empty (machinesInfo : list MachineInfo) : bool :=
    bool_decide (Z.of_nat (length machinesInfo) = 0).

  (** [sortMachineInfos]: the keys are collected and sorted, and then the
      loop [for i := range keys] appends [indexedMachineInfos[int32(i)]]
      for the positions [i] of the sorted keys. *)
Definition sortMachineInfos (indexedMachineInfos : gmap Z (list MachineInfo))
    : list (list MachineInfo) :=
    let keys := merge_sort Z.le ((map_to_list indexedMachineInfos).*1) in
    (λ i, default [] (indexedMachineInfos !! int32 i))
      <$> seqZ 0 (Z.of_nat (length keys)).

  (** [deviseExistingSurge]; [None] is the dereference of a nil
      [cpms.Spec.Replicas]. *)
Definition deviseExistingSurge (cpms : machinev1.ControlPlaneMachineSet)
      (mis : list (list MachineInfo)) : option Z :=
    match machinev1.Replicas (machinev1.Spec cpms) with
    | None => None
    | Some desiredReplicas =>
        let currentReplicas :=
          foldl (λ acc mi, acc + Z.of_nat (length mi)) 0 mis in
        Some (currentReplicas - desiredReplicas)
    end.

  (** [for idx, x := range xs { body }] where the body either returns from
      the enclosing function ([Some]) or goes on to the next element
      ([None]) without any effect. *)
Fixpoint rangeFrom {A R : Type} (idx : Z) (xs : list A) (body : Z → A → option R)
    : option R :=
    match xs with
    | [] => None
    | x :: rest =>
        match body idx x with
        | Some r => Some r
        | None => rangeFrom (idx + 1) rest body
        end
    end.

Definition range {A R : Type} (xs : list A) (body : Z → A → option R) : option R :=
    rangeFrom 0 xs body.

Section WithProvider.
Context {P : Type} `{!MachineProvider P}.

Local Open Scope go_scope.

    (** [machineProvider.CreateMachine] and [machineProvider.DeleteMachine],
        with the call recorded. *)
Definition callCreateMachine (logger : Logger) (index : Z) : M P (option error) :=
      λ w, let '(p, err) := CreateMachine (provider w) logger index in
           (Returned err,
            mkWorld p (calls w ++ [CallCreateMachine logger index]) (logs w)).

Definition callDeleteMachine (logger : Logger) (ref : option ObjectRef)
      : M P (option error) :=
      λ w, let '(p, err) := DeleteMachine (provider w) logger ref in
           (Returned err,
            mkWorld p (calls w ++ [CallDeleteMachine logger ref]) (logs w)).

    (** [deleteMachine]; the machine reference is passed on as it is, and
        read for the text of the error only. *)
Definition deleteMachine (logger : Logger) (outdatedMachine : MachineInfo)
        (namespace : string) (idx : Z) : M P (ctrl.Result * option error) :=
      err <- callDeleteMachine logger (MachineRef outdatedMachine) ;;
      match err with
      | Some err =>
          match MachineRef outdatedMachine with
          | None => panic
          | Some ref =>
              let werr :=
                fmt_Errorf_w
                  ("error deleting Machine " +:+ namespace +:+ "/"
                     +:+ metav1.Name (ObjectMeta ref)
                     +:+ ": " +:+ Error err) err in
              LogError logger werr errorDeletingMachine ;;;
              ret (ctrl.zero, Some werr)
          end
      | None =>
          Info (V 2 logger) removingOldMachine ;;;
          ret (ctrl.zero, None)
      end.

    (** [createMachine]; [surgeCount] is passed by pointer in the source, so
        the counter after the call is returned with the result. *)
Definition createMachine (logger : Logger) (idx maxSurge surgeCount : Z)
      : M P (Z * (ctrl.Result * option error)) :=
      if bool_decide (surgeCount < maxSurge) then
        err <- callCreateMachine logger (int32 idx) ;;
        match err with
        | Some err =>
            let werr :=
              fmt_Errorf_w
                ("error creating new Machine for index " +:+ pretty idx
                   +:+ ": " +:+ Error err) err in
            LogError logger werr errorCreatingMachine ;;;
            ret (surgeCount, (ctrl.zero, Some werr))
        | None =>
            Info (V 2 logger) createdReplacement ;;;
            ret (surgeCount + 1, (ctrl.zero, None))
        end
      else ret (surgeCount, (ctrl.zero, None)).

    (** [reconcileMachineRollingUpdate]; a [panic] inside a loop is the
        dereference of a nil [MachineRef] (or an index out of range) while
        the arguments of the branch are evaluated. *)
Definition reconcileMachineRollingUpdate (r : ControlPlaneMachineSetReconciler)
        (logger : Logger) (cpms : machinev1.ControlPlaneMachineSet)
        (indexedMachineInfos : gmap Z (list MachineInfo))
      : M P (ctrl.Result * option error) :=
      let logger :=
        WithValues logger
          [("updateStrategy",
            LStr (machinev1.Type_ (machinev1.Strategy (machinev1.Spec cpms))))] in
      let sortedIndexedMs := sortMachineInfos indexedMachineInfos in
      let maxSurge := 1 in
      match deviseExistingSurge cpms sortedIndexedMs with
      | None => panic
      | Some surgeCount =>
      (* Reconcile any index with no Machine first. *)
      match range sortedIndexedMs (λ idx machines,
        if empty machines then
          let logger :=
            WithValues logger
              [("index", LInt idx); ("namespace", LStr (Namespace r));
               ("name", LStr "<Unknown>")] in
          Some (res <- createMachine logger idx maxSurge surgeCount ;; ret res.2)
        else None)
      with
      | Some returned => returned
      | None =>
      (* Reconcile any index with no Ready Machines but a replacement pending. *)
      match range sortedIndexedMs (λ idx machines,
        let machinesPending := pendingMachines machines in
        if empty (readyMachines machines) && hasAny machinesPending then
          match machinesPending with
          | replacementMachine :: _ =>
              match MachineRef replacementMachine with
              | None => Some panic
              | Some replacementRef =>
                  let logger :=
                    WithValues logger
                      [("index", LInt idx); ("namespace", LStr (Namespace r));
                       ("name", LStr (metav1.Name (ObjectMeta replacementRef)))] in
                  Some (Info (V 2 logger) waitingForReady ;;; ret (ctrl.zero, None))
              end
          | [] => Some panic
          end
        else None)
      with
      | Some returned => returned
      | None =>
      (* Reconcile machines that need an update. *)
      match range sortedIndexedMs (λ idx machines,
        let outdatedMs := needUpdateMachines machines in
        if hasAny outdatedMs then
          match outdatedMs with
          | outdatedMachine :: _ =>
              match MachineRef outdatedMachine with
              | None => Some panic
              | Some outdatedRef =>
                  let logger :=
                    WithValues logger
                      [("index", LInt idx); ("namespace", LStr (Namespace r));
                       ("name", LStr (metav1.Name (ObjectMeta outdatedRef)))] in
                  if hasAny (updatedMachines machines) then
                    match isDeletedMachine outdatedMachine with
                    | None => Some panic
                    | Some deleted =>
                        if negb deleted then
                          Some (deleteMachine logger outdatedMachine (Namespace r) idx)
                        else
                          Some (Info (V 2 logger) waitingForRemoved ;;;
                                ret (ctrl.zero, None))
                    end
                  else
                    let machinesPending := pendingMachines machines in
                    if hasAny machinesPending then
                      match machinesPending with
                      | replacementMachine :: _ =>
                          match MachineRef replacementMachine with
                          | None => Some panic
                          | Some replacementRef =>
                              Some (Info
                                      (WithValues (V 2 logger)
                                         [("replacementName",
                                           LStr (metav1.Name (ObjectMeta replacementRef)))])
                                      waitingForReplacement ;;;
                                    ret (ctrl.zero, None))
                          end
                      | [] => Some panic
                      end
                    else
                      Some (res <- createMachine logger idx maxSurge surgeCount ;;
                            ret res.2)
              end
          | [] => Some panic
          end
        else None)
      with
      | Some returned => returned
      | None =>
          Info (V 4 logger) noUpdatesRequired ;;;
          ret (ctrl.zero, None)
      end end end end.

    (** [reconcileMachineOnDeleteUpdate] *)
Definition reconcileMachineOnDeleteUpdate (r : ControlPlaneMachineSetReconciler)
        (logger : Logger) (cpms : machinev1.ControlPlaneMachineSet)
        (indexedMachineInfos : gmap Z (list MachineInfo))
      : M P (ctrl.Result * option error) :=
      ret (ctrl.zero, None).

    (** [cpms] is a pointer in the source; the object after the call is
        returned with the result. *)
Definition withCPMS (cpms : machinev1.ControlPlaneMachineSet)
        (m : M P (ctrl.Result * option error))
      : M P (machinev1.ControlPlaneMachineSet * (ctrl.Result * option error)) :=
      res <- m ;; ret (cpms, res).

Definition setCondition (cpms : machinev1.ControlPlaneMachineSet)
        (c : metav1.Condition) : machinev1.ControlPlaneMachineSet :=
      machinev1.mkCPMS (machinev1.Spec cpms)
        (machinev1.mkStatus
           (meta.SetStatusCondition (machinev1.Conditions (machinev1.Status cpms)) c)).

    (** [reconcileMachineUpdates] *)
Definition reconcileMachineUpdates (r : ControlPlaneMachineSetReconciler)
        (logger : Logger) (cpms : machinev1.ControlPlaneMachineSet)
        (machineInfos : gmap Z (list MachineInfo))
      : M P (machinev1.ControlPlaneMachineSet * (ctrl.Result * option error)) :=
      let ty := machinev1.Type_ (machinev1.Strategy (machinev1.Spec cpms)) in
      if String.eqb ty machinev1.RollingUpdate then
        withCPMS cpms (reconcileMachineRollingUpdate r logger cpms machineInfos)
      else if String.eqb ty machinev1.OnDelete then
        withCPMS cpms (reconcileMachineOnDeleteUpdate r logger cpms machineInfos)
      else if String.eqb ty machinev1.Recreate then
        let cpms :=
          setCondition cpms
            (metav1.mkCondition conditionDegraded metav1.ConditionTrue
               reasonInvalidStrategy
               (invalidStrategyMessage +:+ ": " +:+ Error errRecreateStrategyNotSupported)) in
        LogError logger errRecreateStrategyNotSupported invalidStrategyMessage ;;;
        ret (cpms, (ctrl.zero, None))
      else
        let cpms :=
          setCondition cpms
            (metav1.mkCondition conditionDegraded metav1.ConditionTrue
               reasonInvalidStrategy
               (invalidStrategyMessage +:+ ": " +:+ Error errUnknownStrategy
                  +:+ ": " +:+ ty)) in
        LogError logger
          (fmt_Errorf_w (Error errUnknownStrategy +:+ ": " +:+ ty) errUnknownStrategy)
          invalidStrategyMessage ;;;
        ret (cpms, (ctrl.zero, None)).
End WithProvider.
End controlplanemachineset.

(** ** The earlier revision of updates.go

    In this revision [reconcileMachineUpdates] receives the flat list of
    MachineInfos and groups it itself. *)

Module updates_go.
Import machineproviders.

(** [machineInfosByIndex]: the map is made and returned; the conversion of
    the list is a TODO in the source. *)
Definition machineInfosByIndex (machineInfos : list MachineInfo)
  : gmap Z (list MachineInfo) :=
  let out : gmap Z (list MachineInfo) := ∅ in
  out.

Definition invalidStrategyMessage : string := "invalid value for spec.strategy.type".

Definition errRecreateStrategyNotSupported : error :=
  errors_New ("update strategy " +:+ strconv_Quote machinev1.Recreate +:+ " is not supported").
Definition errUnknownStrategy : error := errors_New "unknown update strategy".

Section WithProvider.
Context {P : Type} `{!MachineProvider P}.

Local Open Scope go_scope.

(** [reconcileMachineRollingUpdate] and [reconcileMachineOnDeleteUpdate]
    return at once in this revision. *)
Definition reconcileMachineRollingUpdate
    (r : controlplanemachineset.ControlPlaneMachineSetReconciler)
    (logger : Logger) (cpms : machinev1.ControlPlaneMachineSet)
    (indexedMachineInfos : gmap Z (list MachineInfo))
  : M P (ctrl.Result * option error) :=
  ret (ctrl.zero, None).

Definition reconcileMachineOnDeleteUpdate
    (r : controlplanemachineset.ControlPlaneMachineSetReconciler)
    (logger : Logger) (cpms : machinev1.ControlPlaneMachineSet)
    (indexedMachineInfos : gmap Z (list MachineInfo))
  : M P (ctrl.Result * option error) :=
  ret (ctrl.zero, None).

(** [reconcileMachineUpdates]; setting the degraded condition is a TODO in
    this revision. *)
Definition reconcileMachineUpdates
    (r : controlplanemachineset.ControlPlaneMachineSetReconciler)
    (logger : Logger) (cpms : machinev1.ControlPlaneMachineSet)
    (machineInfos : list MachineInfo)
  : M P (ctrl.Result * option error) :=
  let indexedMachineInfos := machineInfosByIndex machineInfos in
  let ty := machinev1.Type_ (machinev1.Strategy (machinev1.Spec cpms)) in
  if String.eqb ty machinev1.RollingUpdate then
    reconcileMachineRollingUpdate r logger cpms indexedMachineInfos
  else if String.eqb ty machinev1.OnDelete then
    reconcileMachineOnDeleteUpdate r logger cpms indexedMachineInfos
  else if String.eqb ty machinev1.Recreate then
    LogError logger errRecreateStrategyNotSupported invalidStrategyMessage ;;;
    ret (ctrl.zero, None)
  else
    LogError logger
      (fmt_Errorf_w (Error errUnknownStrategy +:+ ": " +:+ ty) errUnknownStrategy)
      invalidStrategyMessage ;;;
    ret (ctrl.zero, None).
End WithProvider.
End updates_go.

(** * Vocabulary of the properties *)

Import machineproviders controlplanemachineset.
Local Open Scope list_scope.
Local Open Scope Z_scope.

(** The calls an invocation [m] adds to the trace of the world [w]. *)
Definition dispatched {P A : Type} (m : M P A) (w : World P) : list Call :=
  drop (length (calls w)) (calls (m w).2).

(** The number of machines of an observation, over all of its indices. *)
Definition observedMachines (obs : gmap Z (list MachineInfo)) : Z :=
  Z.of_nat (sum_list_with (λ kv, length kv.2) (map_to_list obs)).

(** The indices of an observation are [0 .. n-1]. *)
Definition dense (obs : gmap Z (list MachineInfo)) : Prop :=
  ∀ k, is_Some (obs !! k) ↔ 0 ≤ k < Z.of_nat (size obs).

(** What one invocation of the rolling-update engine may add to the call
    trace, given the sorted observation it iterates and the surge it
    devised. *)
Inductive Dispatch (sorted : list (list MachineInfo)) (surge : option Z)
  : list Call → Prop :=
| DispatchNone : Dispatch sorted surge []
| DispatchCreate logger (i : nat) machines s :
    sorted !! i = Some machines →
    logger_value "index" logger = Some (LInt (Z.of_nat i)) →
    surge = Some s →
    s < 1 →
    Dispatch sorted surge [CallCreateMachine logger (int32 (Z.of_nat i))]
| DispatchDelete logger (i : nat) machines m rest :
    sorted !! i = Some machines →
    logger_value "index" logger = Some (LInt (Z.of_nat i)) →
    needUpdateMachines machines = m :: rest →
    isDeletedMachine m = Some false →
    hasAny (updatedMachines machines) = true →
    (∀ (j : nat) ms, sorted !! j = Some ms → ms ≠ []) →
    (∀ (j : nat) ms, (j < i)%nat → sorted !! j = Some ms → needUpdateMachines ms = []) →
    Dispatch sorted surge [CallDeleteMachine logger (MachineRef m)].


(** The conditions under which the first and the second loop of the engine
    return, over the sorted observation. *)
Definition fillsMissingIndex (sorted : list (list MachineInfo)) : bool :=
  existsb empty sorted.

Definition waitsForReady (sorted : list (list MachineInfo)) : bool :=
  existsb (λ machines,
             empty (readyMachines machines) && hasAny (pendingMachines machines))
    sorted.

(** ** The decision procedure of the rolling update

    The three loops of the engine, read as one decision over the sorted
    observation, and the one action each decision stands for. *)

Inductive Decision : Type :=
| CreateAt (i : nat) (name : string)
| WaitForReady (i : nat) (replacement : ObjectRef)
| DeleteAt (i : nat) (outdated : MachineInfo) (outdatedRef : ObjectRef)
| WaitForRemoved (i : nat) (outdatedRef : ObjectRef)
| WaitForReplacement (i : nat) (outdatedRef replacementRef : ObjectRef)
| NoUpdatesRequired
| NilMachineRef.

Definition refName (ref : ObjectRef) : string := metav1.Name (ObjectMeta ref).

Definition decision (sorted : list (list MachineInfo)) : Decision :=
  match list_find (λ machines, empty machines = true) sorted with
  | Some (i, _) => CreateAt i "<Unknown>"
  | None =>
  match list_find
          (λ machines,
             empty (readyMachines machines) && hasAny (pendingMachines machines) = true)
          sorted
  with
  | Some (i, machines) =>
      match pendingMachines machines with
      | replacement :: _ =>
          match MachineRef replacement with
          | Some replacementRef => WaitForReady i replacementRef
          | None => NilMachineRef
          end
      | [] => NoUpdatesRequired
      end
  | None =>
  match list_find (λ machines, hasAny (needUpdateMachines machines) = true) sorted with
  | Some (i, machines) =>
      match needUpdateMachines machines with
      | outdated :: _ =>
          match MachineRef outdated with
          | None => NilMachineRef
          | Some outdatedRef =>
              if hasAny (updatedMachines machines) then
                match isDeletedMachine outdated with
                | Some true => WaitForRemoved i outdatedRef
                | Some false => DeleteAt i outdated outdatedRef
                | None => NilMachineRef
                end
              else
                match pendingMachines machines with
                | replacement :: _ =>
                    match MachineRef replacement with
                    | Some replacementRef =>
                        WaitForReplacement i outdatedRef replacementRef
                    | None => NilMachineRef
                    end
                | [] => CreateAt i (refName outdatedRef)
                end
          end
      | [] => NoUpdatesRequired
      end
  | None => NoUpdatesRequired
  end end end.

(** A delete is decided for a machine through its own reference. *)
Definition wfDecision (d : Decision) : Prop :=
  match d with
  | DeleteAt _ outdated outdatedRef => MachineRef outdated = Some outdatedRef
  | _ => True
  end.

(** The logger of the engine once it has settled on an index. *)
Definition strategyLogger (logger : Logger) (cpms : machinev1.ControlPlaneMachineSet)
  : Logger :=
  WithValues logger
    [("updateStrategy",
      LStr (machinev1.Type_ (machinev1.Strategy (machinev1.Spec cpms))))].

Definition indexLogger (r : ControlPlaneMachineSetReconciler) (logger : Logger)
    (cpms : machinev1.ControlPlaneMachineSet) (i : nat) (name : string) : Logger :=
  WithValues (strategyLogger logger cpms)
    [("index", LInt (Z.of_nat i)); ("namespace", LStr (Namespace r));
     ("name", LStr name)].

Definition perform {P : Type} `{!MachineProvider P}
    (r : ControlPlaneMachineSetReconciler) (logger : Logger)
    (cpms : machinev1.ControlPlaneMachineSet) (surgeCount : Z) (d : Decision)
  : M P (ctrl.Result * option error) :=
  match d with
  | CreateAt i name =>
      bind (createMachine (indexLogger r logger cpms i name) (Z.of_nat i) 1 surgeCount)
        (λ res, ret res.2)
  | WaitForReady i replacementRef =>
      bind (Info (V 2 (indexLogger r logger cpms i (refName replacementRef)))
              waitingForReady)
        (λ _, ret (ctrl.zero, None))
  | DeleteAt i outdated outdatedRef =>
      deleteMachine (indexLogger r logger cpms i (refName outdatedRef)) outdated
        (Namespace r) (Z.of_nat i)
  | WaitForRemoved i outdatedRef =>
      bind (Info (V 2 (indexLogger r logger cpms i (refName outdatedRef)))
              waitingForRemoved)
        (λ _, ret (ctrl.zero, None))
  | WaitForReplacement i outdatedRef replacementRef =>
      bind (Info
              (WithValues (V 2 (indexLogger r logger cpms i (refName outdatedRef)))
                 [("replacementName", LStr (refName replacementRef))])
              waitingForReplacement)
        (λ _, ret (ctrl.zero, None))
  | NoUpdatesRequired =>
      bind (Info (V 4 (strategyLogger logger cpms)) noUpdatesRequired)
        (λ _, ret (ctrl.zero, None))
  | NilMachineRef => panic
  end.

(** What the provider answers to a call. *)
Definition answer {P : Type} `{!MachineProvider P} (p : P) (c : Call)
  : P * option error :=
  match c with
  | CallCreateMachine logger index => CreateMachine p logger index
  | CallDeleteMachine logger ref => DeleteMachine p logger ref
  end.

(** The calls a decision leads to, given the surge devised. *)
Definition callsOf (r : ControlPlaneMachineSetReconciler) (logger : Logger)
    (cpms : machinev1.ControlPlaneMachineSet) (surgeCount : Z) (d : Decision)
  : list Call :=
  match d with
  | CreateAt i name =>
      if bool_decide (surgeCount < 1)
      then [CallCreateMachine (indexLogger r logger cpms i name) (int32 (Z.of_nat i))]
      else []
  | DeleteAt i outdated outdatedRef =>
      [CallDeleteMachine (indexLogger r logger cpms i (refName outdatedRef))
         (MachineRef outdated)]
  | _ => []
  end.

(** A computation makes at most one call, leaves the provider as the call
    left it, and returns the provider's error, wrapped and logged, exactly
    when the provider reported one. *)
Definition Propagates {P : Type} `{!MachineProvider P}
    (m : M P (ctrl.Result * option error)) (w : World P) : Prop :=
  match dispatched m w with
  | [] =>
      provider (m w).2 = provider w ∧
      ((m w).1 = Panicked ∨ (m w).1 = Returned (ctrl.zero, None))
  | [c] =>
      provider (m w).2 = (answer (provider w) c).1 ∧
      match (answer (provider w) c).2 with
      | None => (m w).1 = Returned (ctrl.zero, None)
      | Some cause =>
          ∃ text,
            (m w).1 = Returned (ctrl.zero, Some (fmt_Errorf_w text cause)) ∧
            ∃ lg msg,
              last (logs (m w).2)
              = Some (mkLogLine lg (Some (fmt_Errorf_w text cause)) msg)
      end
  | _ :: _ :: _ => False
  end.

(** [i] is the first position of the sorted observation whose sequence
    satisfies [c], and [machines] is that sequence. *)
Definition firstIndexWhere (c : list MachineInfo → bool)
    (sorted : list (list MachineInfo)) (i : nat) (machines : list MachineInfo) : Prop :=
  sorted !! i = Some machines ∧ c machines = true ∧
  ∀ (j : nat) ms, sorted !! j = Some ms → (j < i)%nat → c ms = false.

(** The condition under which the third loop of the engine returns. *)
Definition advancesOutdated (sorted : list (list MachineInfo)) : bool :=
  existsb (λ machines, hasAny (needUpdateMachines machines)) sorted.

(** ** Scenario data *)

(** A provider without state whose operations always succeed. *)
#[export] Instance okProvider : MachineProvider unit := {|
  CreateMachine p _ _ := (p, None);
  DeleteMachine p _ _ := (p, None)
|}.

Definition machine (name : string) (deletionTimestamp : option Z)
    (ready needsUpdate : bool) (index : Z) : MachineInfo :=
  mkMachineInfo
    (Some (mkObjectRef
             (metav1.mkObjectMeta name "openshift-machine-api" deletionTimestamp)))
    ready needsUpdate index.

(** A MachineInfo whose MachineRef is nil. *)
Definition machineWithoutRef (ready needsUpdate : bool) (index : Z) : MachineInfo :=
  mkMachineInfo None ready needsUpdate index.

Definition cpmsWith (replicas : option Z) (strategy : string)
  : machinev1.ControlPlaneMachineSet :=
  machinev1.mkCPMS (machinev1.mkSpec replicas (machinev1.mkStrategy strategy))
    (machinev1.mkStatus []).

Definition reconciler0 : ControlPlaneMachineSetReconciler :=
  mkReconciler "openshift-machine-api".

Definition logger0 : Logger := mkLogger 0 [].

Definition world0 : World unit := mkWorld tt [] [].

(** S1: index 1 is empty. *)
Definition obsS1 : gmap Z (list MachineInfo) :=
  {[ 0 := [machine "m-0" None true false 0];
     1 := [];
     2 := [machine "m-2" None true false 2] ]}.

(** S4: index 0 holds an outdated machine and its ready replacement. *)
Definition obsS4 : gmap Z (list MachineInfo) :=
  {[ 0 := [machine "m-0" None true true 0; machine "m-0-new" None true false 0];
     1 := [machine "m-1" None true false 1];
     2 := [machine "m-2" None true false 2] ]}.

(** S5: as S4, with the outdated machine already marked for deletion. *)
Definition obsS5 : gmap Z (list MachineInfo) :=
  {[ 0 := [machine "m-0" (Some 1) true true 0; machine "m-0-new" None true false 0];
     1 := [machine "m-1" None true false 1];
     2 := [machine "m-2" None true false 2] ]}.

(** Index 0 is outdated without a replacement, index 1 is outdated with a
    ready replacement; four machines for three replicas. *)
Definition obsBlocked : gmap Z (list MachineInfo) :=
  {[ 0 := [machine "m-0" None true true 0];
     1 := [machine "m-1" None true true 1; machine "m-1-new" None true false 1];
     2 := [machine "m-2" None true false 2] ]}.

(** The only index is 5, with two machines. *)
Definition obsSparse : gmap Z (list MachineInfo) :=
  {[ 5 := [machine "m-5" None true false 5; machine "m-5-new" None true false 5] ]}.

(** The indices are 2 and 5, both empty. *)
Definition obsGaps : gmap Z (list MachineInfo) := {[ 2 := []; 5 := [] ]}.

(** The indices are 0 and 7; index 7 holds an outdated machine and its
    ready replacement. *)
Definition obsFar : gmap Z (list MachineInfo) :=
  {[ 0 := [machine "m-0" None true false 0];
     7 := [machine "m-7" None true true 7; machine "m-7-new" None true false 7] ]}.

(** S2: the only machine of index 1 is not ready yet. *)
Definition obsS2 : gmap Z (list MachineInfo) :=
  {[ 0 := [machine "m-0" None true false 0];
     1 := [machine "m-1" None false false 1];
     2 := [machine "m-2" None true false 2] ]}.



(** Every index holds one ready machine that needs no update. *)
Definition obsConverged : gmap Z (list MachineInfo) :=
  {[ 0 := [machine "m-0" None true false 0];
     1 := [machine "m-1" None true false 1];
     2 := [machine "m-2" None true false 2] ]}.

(** S2 with a pending machine whose MachineRef is nil. *)
Definition obsNilRef : gmap Z (list MachineInfo) :=
  {[ 0 := [machine "m-0" None true false 0];
     1 := [machineWithoutRef false false 1];
     2 := [machine "m-2" None true false 2] ]}.

(** A provider that counts its calls and fails each of them. *)
#[export] Instance failingProvider : MachineProvider nat := {|
  CreateMachine p _ _ := (S p, Some (errors_New "quota exceeded"));
  DeleteMachine p _ _ := (S p, Some (errors_New "forbidden"))
|}.

(** * Proofs *)

(** ** Loops *)

Lemma rangeFrom_Some {A R : Type} (body : Z → A → option R) xs idx r :
  rangeFrom idx xs body = Some r →
  ∃ (i : nat) x, xs !! i = Some x ∧ body (idx + Z.of_nat i) x = Some r ∧
    ∀ (j : nat) y, (j < i)%nat → xs !! j = Some y → body (idx + Z.of_nat j) y = None.
Proof.
  revert idx. induction xs as [|x xs IH]; intros idx Hr; simpl in Hr; [done|].
  destruct (body idx x) eqn:Hb.
  - exists 0%nat, x. split; [done|]. split.
    + by rewrite Z.add_0_r, Hb.
    + intros j y Hj. lia.
  - destruct (IH _ Hr) as (i & y & Hi & Hy & Hlt).
    exists (S i), y. split; [done|]. split.
    + by replace (idx + Z.of_nat (S i)) with (idx + 1 + Z.of_nat i) by lia.
    + intros [|j] z Hj Hz; simpl in Hz.
      * injection Hz as <-. by rewrite Z.add_0_r.
      * replace (idx + Z.of_nat (S j)) with (idx + 1 + Z.of_nat j) by lia.
        apply Hlt; [lia|done].
Qed.

Lemma rangeFrom_None {A R : Type} (body : Z → A → option R) xs idx :
  rangeFrom idx xs body = None ↔
  ∀ (i : nat) x, xs !! i = Some x → body (idx + Z.of_nat i) x = None.
Proof.
  revert idx. induction xs as [|x xs IH]; intros idx; simpl.
  - split; [|done]. by intros _ [|i] y.
  - destruct (body idx x) eqn:Hb.
    + split; [done|]. intros H. specialize (H 0%nat x eq_refl).
      rewrite Z.add_0_r in H. congruence.
    + rewrite IH. split.
      * intros H [|i] y Hy; simpl in Hy.
        -- injection Hy as <-. by rewrite Z.add_0_r.
        -- replace (idx + Z.of_nat (S i)) with (idx + 1 + Z.of_nat i) by lia. eauto.
      * intros H i y Hy.
        replace (idx + 1 + Z.of_nat i) with (idx + Z.of_nat (S i)) by lia.
        by apply H.
Qed.

Lemma rangeFrom_first {A R : Type} (body : Z → A → option R) xs idx (i : nat) x r :
  xs !! i = Some x →
  body (idx + Z.of_nat i) x = Some r →
  (∀ (j : nat) y, (j < i)%nat → xs !! j = Some y → body (idx + Z.of_nat j) y = None) →
  rangeFrom idx xs body = Some r.
Proof.
  revert idx i. induction xs as [|z xs IH]; intros idx i Hx Hb Hlt; [done|].
  destruct i as [|i]; simpl.
  - injection Hx as ->. rewrite Z.add_0_r in Hb. by rewrite Hb.
  - assert (body idx z = None) as ->.
    { rewrite <- (Z.add_0_r idx). apply (Hlt 0%nat z); [lia|done]. }
    apply (IH (idx + 1) i); [done| |].
    + by replace (idx + 1 + Z.of_nat i) with (idx + Z.of_nat (S i)) by lia.
    + intros j y Hj Hy.
      replace (idx + 1 + Z.of_nat j) with (idx + Z.of_nat (S j)) by lia.
      apply Hlt; [lia|done].
Qed.

(** ** Classifiers *)

Lemma hasAny_true ms : hasAny ms = true ↔ ms ≠ [].
Proof.
  unfold hasAny. rewrite bool_decide_eq_true. destruct ms; simpl; split; try done; lia.
Qed.

Lemma hasAny_false ms : hasAny ms = false ↔ ms = [].
Proof.
  unfold hasAny. rewrite bool_decide_eq_false. destruct ms; simpl; split; try done; lia.
Qed.

Lemma empty_true ms : empty ms = true ↔ ms = [].
Proof.
  unfold empty. rewrite bool_decide_eq_true. destruct ms; simpl; split; try done; lia.
Qed.

Lemma empty_false ms : empty ms = false ↔ ms ≠ [].
Proof.
  unfold empty. rewrite bool_decide_eq_false. destruct ms; simpl; split; try done; lia.
Qed.

Lemma needUpdateMachines_In m ms :
  In m (needUpdateMachines ms) ↔ In m ms ∧ NeedsUpdate m = true.
Proof. apply filter_In. Qed.

Lemma updatedMachines_In m ms :
  In m (updatedMachines ms) ↔ In m ms ∧ Ready m = true ∧ NeedsUpdate m = false.
Proof.
  unfold updatedMachines. rewrite filter_In, andb_true_iff, negb_true_iff. tauto.
Qed.

Lemma isDeletedMachine_false m :
  isDeletedMachine m = Some false ↔
  ∃ ref, MachineRef m = Some ref ∧ metav1.DeletionTimestamp (ObjectMeta ref) = None.
Proof.
  unfold isDeletedMachine. destruct (MachineRef m) as [ref|]; cycle 1.
  { split; [done|]. by intros (ref & Href & _). }
  split.
  - intros [= Hdel]. exists ref. split; [done|].
    apply bool_decide_eq_false in Hdel.
    destruct (metav1.DeletionTimestamp _); [by destruct Hdel|done].
  - intros (ref' & [= <-] & Hnone). by rewrite Hnone.
Qed.

Lemma isDeletedMachine_true m :
  isDeletedMachine m = Some true ↔
  ∃ ref, MachineRef m = Some ref ∧ metav1.DeletionTimestamp (ObjectMeta ref) ≠ None.
Proof.
  unfold isDeletedMachine. destruct (MachineRef m) as [ref|]; cycle 1.
  { split; [done|]. by intros (ref & Href & _). }
  split.
  - intros [= Hdel]. exists ref. split; [done|]. by apply bool_decide_eq_true in Hdel.
  - intros (ref' & [= <-] & Hsome). f_equal. by apply bool_decide_eq_true.
Qed.

(** ** Loggers *)

Lemma logger_value_index lg (idx : Z) ns name :
  logger_value "index"
    (WithValues lg [("index", LInt idx); ("namespace", LStr ns); ("name", LStr name)])
  = Some (LInt idx).
Proof.
  unfold logger_value, WithValues. simpl values.
  rewrite filter_app.
  replace (filter (λ kv : string * LogValue, kv.1 = "index")
             [("index", LInt idx); ("namespace", LStr ns); ("name", LStr name)])
    with [("index", LInt idx)] by reflexivity.
  by rewrite last_snoc.
Qed.

(** ** Runs of the provider operations *)

Section Runs.
Context {P : Type} `{!MachineProvider P}.

Lemma dispatched_app {A : Type} (m : M P A) (w : World P) (cs : list Call) :
  calls (m w).2 = calls w ++ cs → dispatched m w = cs.
Proof. intros H. unfold dispatched. rewrite H. by rewrite drop_app_length. Qed.

Lemma createMachine_run logger idx maxSurge surgeCount (w : World P) :
  let m := bind (createMachine logger idx maxSurge surgeCount) (λ res, ret res.2) in
  (surgeCount < maxSurge ∧
   calls (m w).2 = calls w ++ [CallCreateMachine logger (int32 idx)])
  ∨ (maxSurge ≤ surgeCount ∧ m w = (Returned (ctrl.zero, None), w)).
Proof.
  simpl. unfold createMachine, bind, ret. case_bool_decide as Hs.
  - left. split; [done|]. unfold callCreateMachine.
    destruct (CreateMachine (provider w) logger (int32 idx)) as [p [err|]]; by simpl.
  - right. split; [lia|done].
Qed.

Lemma deleteMachine_run logger m namespace idx (w : World P) :
  calls (deleteMachine logger m namespace idx w).2
  = calls w ++ [CallDeleteMachine logger (MachineRef m)].
Proof.
  unfold deleteMachine, bind, callDeleteMachine.
  destruct (DeleteMachine (provider w) logger (MachineRef m)) as [p [err|]];
    [|done].
  by destruct (MachineRef m).
Qed.

Lemma Info_run {A : Type} logger msg (a : A) (w : World P) :
  bind (Info logger msg) (λ _, ret a) w
  = (Returned a,
     mkWorld (provider w) (calls w) (logs w ++ [mkLogLine logger None msg])).
Proof. done. Qed.

Local Ltac quiet :=
  exists []; split; [by rewrite ?app_nil_r|constructor].

(** Every invocation of the engine adds to the call trace one of the
    shapes of [Dispatch]. *)
Lemma rolling_update_dispatch r logger cpms obs (w : World P) :
  ∃ cs,
    calls (reconcileMachineRollingUpdate r logger cpms obs w).2 = calls w ++ cs ∧
    Dispatch (sortMachineInfos obs)
      (deviseExistingSurge cpms (sortMachineInfos obs)) cs.
Proof.
  unfold reconcileMachineRollingUpdate, range.
  set (sorted := sortMachineInfos obs).
  destruct (deviseExistingSurge cpms sorted) as [surge|] eqn:Hsurge; cycle 1.
  { quiet. }
  destruct (rangeFrom 0 sorted _) as [ra|] eqn:HA.
  { apply rangeFrom_Some in HA as (i & machines & Hi & Hbody & _).
    rewrite Z.add_0_l in Hbody.
    destruct (empty machines); [|done]. injection Hbody as <-.
    match goal with
    | |- context [createMachine ?l ?i ?ms ?sc] =>
        destruct (createMachine_run l i ms sc w) as [[Hlt Hc]|[Hge Hc]]
    end.
    - eexists. split; [exact Hc|].
      eapply DispatchCreate; eauto using logger_value_index.
    - rewrite Hc. quiet. }
  assert (∀ (j : nat) ms, sorted !! j = Some ms → ms ≠ []) as Hfull.
  { intros j ms Hj. pose proof (proj1 (rangeFrom_None _ _ _) HA j ms Hj) as Hb.
    simpl in Hb. destruct (empty ms) eqn:He; [done|]. by apply empty_false. }
  clear HA.
  destruct (rangeFrom 0 sorted _) as [rb|] eqn:HB.
  { apply rangeFrom_Some in HB as (i & machines & Hi & Hbody & _).
    rewrite Z.add_0_l in Hbody. simpl in Hbody.
    destruct (empty (readyMachines machines)); [|done].
    destruct (hasAny (pendingMachines machines)); [|done]. simpl in Hbody.
    destruct (pendingMachines machines) as [|p ps];
      [injection Hbody as <-; quiet|].
    destruct (MachineRef p); injection Hbody as <-; quiet. }
  clear HB.
  destruct (rangeFrom 0 sorted _) as [rc|] eqn:HC.
  { apply rangeFrom_Some in HC as (i & machines & Hi & Hbody & Hearlier).
    rewrite Z.add_0_l in Hbody. simpl in Hbody.
    destruct (hasAny (needUpdateMachines machines)) eqn:Hany; [|done].
    apply hasAny_true in Hany.
    destruct (needUpdateMachines machines) as [|m rest] eqn:Hout; [done|].
    destruct (MachineRef m) as [mref|] eqn:Hmref;
      [|injection Hbody as <-; quiet].
    destruct (hasAny (updatedMachines machines)) eqn:Hupd.
    - destruct (isDeletedMachine m) as [[|]|] eqn:Hdel; simpl in Hbody;
        injection Hbody as <-; [quiet| |quiet].
      eexists. split; [apply deleteMachine_run|].
      eapply DispatchDelete; eauto using logger_value_index.
      intros j ms Hj Hms. specialize (Hearlier j ms Hj Hms). simpl in Hearlier.
      destruct (hasAny (needUpdateMachines ms)) eqn:Hj'.
      + exfalso. apply hasAny_true in Hj'. revert Hearlier.
        destruct (needUpdateMachines ms); [done|].
        repeat case_match; done.
      + by apply hasAny_false.
    - destruct (hasAny (pendingMachines machines)) eqn:Hpend.
      + destruct (pendingMachines machines) as [|p ps];
          [injection Hbody as <-; quiet|].
        destruct (MachineRef p); injection Hbody as <-; quiet.
      + injection Hbody as <-.
        match goal with
        | |- context [createMachine ?l ?i ?ms ?sc] =>
            destruct (createMachine_run l i ms sc w) as [[Hlt Hc]|[Hge Hc]]
        end.
        * eexists. split; [exact Hc|].
          eapply DispatchCreate; eauto using logger_value_index.
        * rewrite Hc. quiet. }
  quiet.
Qed.

End Runs.

(** ** The sorted observation *)

Lemma int32_small x : - 2 ^ 31 ≤ x < 2 ^ 31 → int32 x = x.
Proof. unfold int32. intros H. rewrite Z.mod_small; lia. Qed.

Lemma sortMachineInfos_length obs : length (sortMachineInfos obs) = size obs.
Proof.
  unfold sortMachineInfos.
  rewrite length_fmap, length_seqZ, Nat2Z.id.
  rewrite (Permutation_length (merge_sort_Permutation _ _)).
  by rewrite length_fmap, length_map_to_list.
Qed.

Lemma sortMachineInfos_lookup obs (i : nat) ms :
  sortMachineInfos obs !! i = Some ms ↔
  (i < size obs)%nat ∧ ms = default [] (obs !! int32 (Z.of_nat i)).
Proof.
  split.
  - intros H. split.
    + rewrite <- sortMachineInfos_length. by eapply lookup_lt_Some.
    + unfold sortMachineInfos in H. rewrite list_lookup_fmap in H.
      destruct (seqZ _ _ !! i) as [z|] eqn:Hz; [|done].
      apply lookup_seqZ in Hz as [-> _]. simpl in H. by injection H as <-.
  - intros [Hi ->]. unfold sortMachineInfos. rewrite list_lookup_fmap.
    rewrite lookup_seqZ_lt; [done|].
    rewrite (Permutation_length (merge_sort_Permutation _ _)).
    rewrite length_fmap, length_map_to_list. lia.
Qed.

(** A non-empty entry of the sorted observation is the sequence the
    observation holds under the key read for its position. *)
Lemma sortMachineInfos_lookup_nonempty obs (i : nat) ms :
  sortMachineInfos obs !! i = Some ms → ms ≠ [] →
  obs !! int32 (Z.of_nat i) = Some ms.
Proof.
  intros [_ ->]%sortMachineInfos_lookup Hne.
  destruct (obs !! _); [done|]. by destruct Hne.
Qed.

Lemma sortMachineInfos_dense obs (i : nat) :
  dense obs → Z.of_nat (size obs) ≤ 2 ^ 31 → (i < size obs)%nat →
  sortMachineInfos obs !! i = obs !! Z.of_nat i.
Proof.
  intros Hd Hn Hi.
  destruct (proj2 (Hd (Z.of_nat i))) as [ms Hms]; [lia|].
  rewrite Hms. apply sortMachineInfos_lookup. split; [done|].
  rewrite int32_small by lia. by rewrite Hms.
Qed.

Lemma dense_lookup obs k ms :
  dense obs → Z.of_nat (size obs) ≤ 2 ^ 31 → obs !! k = Some ms →
  ∃ i : nat, k = Z.of_nat i ∧ (i < size obs)%nat ∧ sortMachineInfos obs !! i = Some ms.
Proof.
  intros Hd Hn Hk.
  destruct (proj1 (Hd k)) as [H0 Hlt]; [by eexists|].
  exists (Z.to_nat k). split; [lia|]. split; [lia|].
  rewrite sortMachineInfos_dense by (done || lia).
  by rewrite Z2Nat.id.
Qed.

Lemma sum_list_with_fmap_ext {A B : Type} (f : B → nat) (g : A → B) (h : A → nat) l :
  (∀ x, x ∈ l → f (g x) = h x) →
  sum_list_with f (g <$> l) = sum_list_with h l.
Proof.
  induction l as [|x l IH]; intros H; csimpl; [done|].
  rewrite H by left. rewrite IH; [done|]. intros y Hy. apply H. by right.
Qed.

Lemma foldl_length_sum (mis : list (list MachineInfo)) (acc : Z) :
  foldl (λ acc mi, acc + Z.of_nat (length mi)) acc mis
  = acc + Z.of_nat (sum_list_with length mis).
Proof.
  revert acc. induction mis as [|mi mis IH]; intros acc; simpl; [lia|].
  rewrite IH. lia.
Qed.

Lemma map_to_list_dense obs :
  dense obs →
  map_to_list obs
  ≡ₚ (λ i, (i, default [] (obs !! i))) <$> seqZ 0 (Z.of_nat (size obs)).
Proof.
  intros Hd. apply NoDup_Permutation.
  - apply NoDup_map_to_list.
  - apply NoDup_fmap_2_strong; [|apply NoDup_seqZ].
    intros x y _ _ Hxy. by injection Hxy.
  - intros [k ms]. rewrite elem_of_map_to_list, list_elem_of_fmap. split.
    + intros Hk. exists k. rewrite Hk. split; [done|].
      apply elem_of_seqZ. destruct (proj1 (Hd k)); [by eexists|]. lia.
    + intros (i & Heq & Hi). injection Heq as -> ->.
      apply elem_of_seqZ in Hi.
      destruct (proj2 (Hd i)) as [ms Hms]; [lia|]. by rewrite Hms.
Qed.

(** On a dense observation the surge the engine devises is the number of
    observed machines minus the desired replicas. *)
Lemma deviseExistingSurge_dense cpms obs n :
  dense obs → Z.of_nat (size obs) ≤ 2 ^ 31 →
  machinev1.Replicas (machinev1.Spec cpms) = Some n →
  deviseExistingSurge cpms (sortMachineInfos obs) = Some (observedMachines obs - n).
Proof.
  intros Hd Hn Hr. unfold deviseExistingSurge. rewrite Hr. f_equal.
  rewrite foldl_length_sum, Z.add_0_l. f_equal. unfold observedMachines. f_equal.
  rewrite (map_to_list_dense obs Hd).
  unfold sortMachineInfos.
  rewrite (Permutation_length (merge_sort_Permutation _ _)).
  rewrite length_fmap, length_map_to_list.
  rewrite (sum_list_with_fmap_ext _ _ (λ i, length (default [] (obs !! i)))).
  - symmetry. by apply sum_list_with_fmap_ext.
  - intros i Hi%elem_of_seqZ. rewrite int32_small by lia. done.
Qed.

(** ** The rolling-update engine *)

Section RollingUpdate.
Context {P : Type} `{!MachineProvider P}.

Lemma dispatched_delete r logger cpms obs (w : World P) lg ref :
  CallDeleteMachine lg ref
    ∈ dispatched (reconcileMachineRollingUpdate r logger cpms obs) w →
  ∃ (i : nat) machines m rest,
    ref = MachineRef m ∧
    logger_value "index" lg = Some (LInt (Z.of_nat i)) ∧
    obs !! int32 (Z.of_nat i) = Some machines ∧
    needUpdateMachines machines = m :: rest ∧
    isDeletedMachine m = Some false ∧
    updatedMachines machines ≠ [].
Proof.
  destruct (rolling_update_dispatch r logger cpms obs w) as (cs & Hcs & Hd).
  rewrite (dispatched_app _ _ _ Hcs). intros Hin.
  destruct Hd as [|? ? ? ? ? ? ? ?|lg' i machines m rest Hi Hlg Hout Hdel Hupd _ _].
  - by apply elem_of_nil in Hin.
  - apply list_elem_of_singleton in Hin. discriminate Hin.
  - apply list_elem_of_singleton in Hin. injection Hin as -> ->.
    exists i, machines, m, rest. repeat split; try done.
    + apply sortMachineInfos_lookup_nonempty; [done|].
      intros ->. discriminate Hout.
    + by apply hasAny_true.
Qed.

(** C1: an invocation of the rolling-update engine extends the trace of
    provider calls by at most one call, whatever the strategy, the replica
    count and the indexed observation are: at most one of CreateMachine and
    DeleteMachine is called, and at most once. *)
Theorem single_action_per_invocation r logger cpms obs (w : World P) :
  ∃ cs : list Call,
    calls (reconcileMachineRollingUpdate r logger cpms obs w).2 = calls w ++ cs ∧
    (length cs ≤ 1)%nat.
Proof.
  destruct (rolling_update_dispatch r logger cpms obs w) as (cs & Hcs & Hd).
  exists cs. split; [done|]. destruct Hd; simpl; lia.
Qed.

(** C2: when the engine dispatches DeleteMachine for a machine at index i,
    the sequence the observation holds at index i contains that machine
    and at least one MachineInfo that is ready and needs no update. *)
Theorem create_before_delete r logger cpms obs (w : World P) lg ref :
  CallDeleteMachine lg ref
    ∈ dispatched (reconcileMachineRollingUpdate r logger cpms obs) w →
  ∃ (i : Z) machines,
    logger_value "index" lg = Some (LInt i) ∧
    obs !! int32 i = Some machines ∧
    (∃ m, m ∈ machines ∧ MachineRef m = ref) ∧
    (∃ u, u ∈ machines ∧ Ready u = true ∧ NeedsUpdate u = false).
Proof.
  intros (i & machines & m & rest & -> & Hlg & Hobs & Hout & _ & Hupd)%dispatched_delete.
  exists (Z.of_nat i), machines. repeat split; try done.
  - exists m. split; [|done]. apply list_elem_of_In.
    apply (needUpdateMachines_In m machines). rewrite Hout. by left.
  - destruct (updatedMachines machines) as [|u us] eqn:Hu; [done|].
    exists u. rewrite list_elem_of_In. apply updatedMachines_In. rewrite Hu. by left.
Qed.

(** C10: every DeleteMachine call of the engine targets a MachineInfo of
    the observation that needs an update and whose reference, which is not
    nil, carries no deletion timestamp. *)
Theorem delete_targets_live_outdated r logger cpms obs (w : World P) lg ref :
  CallDeleteMachine lg ref
    ∈ dispatched (reconcileMachineRollingUpdate r logger cpms obs) w →
  (∃ target,
     ref = Some target ∧ metav1.DeletionTimestamp (ObjectMeta target) = None) ∧
  ∃ (k : Z) machines m,
    obs !! k = Some machines ∧ m ∈ machines ∧ MachineRef m = ref ∧
    NeedsUpdate m = true ∧ isDeletedMachine m = Some false.
Proof.
  intros (i & machines & m & rest & -> & _ & Hobs & Hout & Hdel & _)%dispatched_delete.
  split; [by apply isDeletedMachine_false|].
  exists (int32 (Z.of_nat i)), machines, m.
  assert (In m (needUpdateMachines machines)) as [Hm Hneeds]%needUpdateMachines_In
    by (rewrite Hout; by left).
  by rewrite list_elem_of_In.
Qed.

End RollingUpdate.

Lemma scenario_S4_dispatch :
  dispatched
    (reconcileMachineRollingUpdate reconciler0 logger0
       (cpmsWith (Some 3) machinev1.RollingUpdate) obsS4) world0
  = [CallDeleteMachine
       (mkLogger 0
          [("updateStrategy", LStr "RollingUpdate"); ("index", LInt 0);
           ("namespace", LStr "openshift-machine-api"); ("name", LStr "m-0")])
       (MachineRef (machine "m-0" None true true 0))].
Proof. by vm_compute. Qed.

Lemma create_before_delete_witness :
  ∃ (i : Z) machines,
    logger_value "index"
      (mkLogger 0
         [("updateStrategy", LStr "RollingUpdate"); ("index", LInt 0);
          ("namespace", LStr "openshift-machine-api"); ("name", LStr "m-0")])
    = Some (LInt i) ∧
    obsS4 !! int32 i = Some machines ∧
    (∃ m, m ∈ machines ∧ MachineRef m = MachineRef (machine "m-0" None true true 0)) ∧
    (∃ u, u ∈ machines ∧ Ready u = true ∧ NeedsUpdate u = false).
Proof.
  apply (create_before_delete reconciler0 logger0
           (cpmsWith (Some 3) machinev1.RollingUpdate) obsS4 world0).
  vm_compute. left.
Defined.

Lemma delete_targets_live_outdated_witness :
  (∃ target,
     MachineRef (machine "m-0" None true true 0) = Some target ∧
     metav1.DeletionTimestamp (ObjectMeta target) = None) ∧
  ∃ (k : Z) machines m,
    obsS4 !! k = Some machines ∧ m ∈ machines ∧
    MachineRef m = MachineRef (machine "m-0" None true true 0) ∧
    NeedsUpdate m = true ∧ isDeletedMachine m = Some false.
Proof.
  apply (delete_targets_live_outdated reconciler0 logger0
           (cpmsWith (Some 3) machinev1.RollingUpdate) obsS4 world0
           (mkLogger 0
              [("updateStrategy", LStr "RollingUpdate"); ("index", LInt 0);
               ("namespace", LStr "openshift-machine-api"); ("name", LStr "m-0")])).
  vm_compute. left.
Defined.

(** ** Waiting for removal *)

(** When no entry of the sorted observation is empty, the indices of the
    observation are [0 .. n-1]. *)
Lemma full_dense obs :
  Z.of_nat (size obs) ≤ 2 ^ 31 →
  (∀ (j : nat) ms, sortMachineInfos obs !! j = Some ms → ms ≠ []) →
  dense obs.
Proof.
  intros Hn Hfull.
  assert (∀ k, 0 ≤ k < Z.of_nat (size obs) → is_Some (obs !! k)) as Hin.
  { intros k Hk.
    assert (sortMachineInfos obs !! Z.to_nat k
            = Some (default [] (obs !! int32 (Z.of_nat (Z.to_nat k))))) as Hs
      by (apply sortMachineInfos_lookup; split; [lia|done]).
    apply Hfull in Hs. rewrite Z2Nat.id, int32_small in Hs by lia.
    destruct (obs !! k); [by eexists|done]. }
  set (X := list_to_set (seqZ 0 (Z.of_nat (size obs))) : gset Z).
  assert (X = dom obs) as HX.
  { apply set_subseteq_size_eq.
    - intros k Hk. apply elem_of_list_to_set, elem_of_seqZ in Hk.
      apply elem_of_dom, Hin. lia.
    - unfold X. rewrite size_list_to_set by apply NoDup_seqZ.
      rewrite length_seqZ, Nat2Z.id, size_dom. lia. }
  intros k. split; [|apply Hin].
  intros Hk%elem_of_dom. rewrite <- HX in Hk.
  apply elem_of_list_to_set, elem_of_seqZ in Hk. lia.
Qed.

Lemma existsb_false_lookup {A : Type} (f : A → bool) (l : list A) (j : nat) x :
  existsb f l = false → l !! j = Some x → f x = false.
Proof.
  intros Hl Hj. destruct (f x) eqn:Hf; [|done].
  assert (existsb f l = true) as Ht; [|congruence].
  apply existsb_exists. exists x. split; [|done].
  apply list_elem_of_In. by eapply list_elem_of_lookup_2.
Qed.

Section WaitForRemoval.
Context {P : Type} `{!MachineProvider P}.

(** C9: when neither of the first two phases fires and, at the lowest
    outdated index, the first outdated machine carries a deletion timestamp
    while an updated machine exists at that index, the engine calls neither
    CreateMachine nor DeleteMachine and returns success; the provider and
    the call trace are as before, and the only effect is the log line
    "Waiting for machine to be removed". *)
Theorem wait_for_removal r logger cpms obs (w : World P)
    (n i : Z) machines m rest :
  machinev1.Replicas (machinev1.Spec cpms) = Some n →
  Z.of_nat (size obs) ≤ 2 ^ 31 →
  fillsMissingIndex (sortMachineInfos obs) = false →
  waitsForReady (sortMachineInfos obs) = false →
  obs !! i = Some machines →
  needUpdateMachines machines = m :: rest →
  (∀ j ms, obs !! j = Some ms → j < i → needUpdateMachines ms = []) →
  isDeletedMachine m = Some true →
  hasAny (updatedMachines machines) = true →
  ∃ lg,
    reconcileMachineRollingUpdate r logger cpms obs w
    = (Returned (ctrl.zero, None),
       mkWorld (provider w) (calls w)
         (logs w ++ [mkLogLine lg None waitingForRemoved])).
Proof.
  intros Hrep Hn HA HB Hi Hout Hlow Hdel Hupd.
  assert (∀ (j : nat) ms, sortMachineInfos obs !! j = Some ms → ms ≠ []) as Hfull.
  { intros j ms Hj. apply empty_false. by eapply existsb_false_lookup. }
  pose proof (full_dense obs Hn Hfull) as Hd.
  destruct (dense_lookup obs i machines Hd Hn Hi) as (p & -> & Hp & Hsp).
  unfold reconcileMachineRollingUpdate, range.
  set (sorted := sortMachineInfos obs) in *.
  destruct (deviseExistingSurge cpms sorted) as [surge|] eqn:Hsurge; cycle 1.
  { unfold deviseExistingSurge in Hsurge. by rewrite Hrep in Hsurge. }
  destruct (rangeFrom 0 sorted _) as [ra|] eqn:Ha.
  { apply rangeFrom_Some in Ha as (j & ms & Hj & Hbody & _). exfalso.
    apply Hfull, empty_false in Hj. by rewrite Hj in Hbody. }
  clear Ha.
  destruct (rangeFrom 0 sorted _) as [rb|] eqn:Hb.
  { apply rangeFrom_Some in Hb as (j & ms & Hj & Hbody & _). exfalso.
    pose proof (existsb_false_lookup _ _ _ _ HB Hj) as Hw. simpl in Hw, Hbody.
    by rewrite Hw in Hbody. }
  clear Hb.
  pose proof Hdel as (mref & Hmref & _)%isDeletedMachine_true.
  erewrite (rangeFrom_first _ sorted 0 p machines); cycle 1.
  - exact Hsp.
  - simpl. rewrite Hout. simpl. rewrite Hmref, Hupd, Hdel. simpl. reflexivity.
  - intros j ms Hj Hms. simpl.
    assert (needUpdateMachines ms = []) as ->; [|done].
    apply (Hlow (Z.of_nat j)); [|lia].
    rewrite <- Hms. symmetry. apply sortMachineInfos_dense; (done || lia).
  - by eexists.
Qed.

End WaitForRemoval.

Lemma wait_for_removal_witness :
  ∃ lg,
    reconcileMachineRollingUpdate reconciler0 logger0
      (cpmsWith (Some 3) machinev1.RollingUpdate) obsS5 world0
    = (Returned (ctrl.zero, None),
       mkWorld (provider world0) (calls world0)
         (logs world0 ++ [mkLogLine lg None waitingForRemoved])).
Proof.
  apply (wait_for_removal reconciler0 logger0
           (cpmsWith (Some 3) machinev1.RollingUpdate) obsS5 world0 3 0
           [machine "m-0" (Some 1) true true 0; machine "m-0-new" None true false 0]
           (machine "m-0" (Some 1) true true 0) []).
  - reflexivity.
  - vm_compute. discriminate.
  - by vm_compute.
  - by vm_compute.
  - by vm_compute.
  - by vm_compute.
  - intros j ms Hj Hlt. exfalso.
    apply (elem_of_dom_2 obsS5) in Hj.
    assert (dom obsS5 = {[0; 1; 2]}) as Hdom by (by vm_compute).
    rewrite Hdom in Hj.
    repeat (apply elem_of_union in Hj as [Hj|Hj]); apply elem_of_singleton in Hj; lia.
  - by vm_compute.
  - by vm_compute.
Defined.

(** ** The surge bound *)

Section Surge.
Context {P : Type} `{!MachineProvider P}.

(** On an observation whose indices are [0 .. n-1], a surge of at least
    [maxSurge] excludes every CreateMachine call. *)
Lemma surge_bound_dense r logger cpms obs (w : World P) n lg idx :
  dense obs → Z.of_nat (size obs) ≤ 2 ^ 31 →
  machinev1.Replicas (machinev1.Spec cpms) = Some n →
  1 ≤ observedMachines obs - n →
  CallCreateMachine lg idx
    ∉ dispatched (reconcileMachineRollingUpdate r logger cpms obs) w.
Proof.
  intros Hd Hn Hrep Hsurge Hin.
  destruct (rolling_update_dispatch r logger cpms obs w) as (cs & Hcs & Hdisp).
  rewrite (dispatched_app _ _ _ Hcs) in Hin.
  rewrite (deviseExistingSurge_dense cpms obs n Hd Hn Hrep) in Hdisp.
  destruct Hdisp as [|? ? ? s _ _ Hs Hlt|].
  - by apply elem_of_nil in Hin.
  - injection Hs as <-. lia.
  - apply list_elem_of_singleton in Hin. discriminate Hin.
Qed.

End Surge.

(** C4 on [obsBlocked] with three replicas: the surge is [maxSurge],
    index 0 is outdated without a replacement and index 1 is outdated with
    an updated replacement that is not marked deleted.  The invocation ends
    at the blocked create of index 0: it returns success with the world as
    it was, so the delete of index 1 is not dispatched, no line is logged,
    and the next invocation on the same observation does the same. *)
Theorem blocked_create_stalls :
  1 ≤ observedMachines obsBlocked - 3 ∧
  (∃ machines,
     obsBlocked !! 0 = Some machines ∧ needUpdateMachines machines ≠ [] ∧
     updatedMachines machines = [] ∧ pendingMachines machines = []) ∧
  (∃ machines m,
     obsBlocked !! 1 = Some machines ∧ head (needUpdateMachines machines) = Some m ∧
     isDeletedMachine m = Some false ∧ updatedMachines machines ≠ []) ∧
  reconcileMachineRollingUpdate reconciler0 logger0
    (cpmsWith (Some 3) machinev1.RollingUpdate) obsBlocked world0
  = (Returned (ctrl.zero, None), world0).
Proof.
  split; [by vm_compute|]. split; [|split].
  - eexists. split; [by vm_compute|]. by vm_compute.
  - eexists _, _. split; [by vm_compute|]. by vm_compute.
  - by vm_compute.
Qed.

(** ** Observations whose indices are not [0 .. n-1] *)

(** C3 on [obsSparse] with one replica: two machines are observed, so the
    surge is [maxSurge]; the engine reads position 0 of the sorted keys as
    key 0, finds no machine, devises a surge of -1 and calls
    CreateMachine for index 0. *)
Theorem surge_bound_sparse :
  1 ≤ observedMachines obsSparse - 1 ∧
  sortMachineInfos obsSparse = [[]] ∧
  deviseExistingSurge (cpmsWith (Some 1) machinev1.RollingUpdate)
    (sortMachineInfos obsSparse) = Some (-1) ∧
  dispatched
    (reconcileMachineRollingUpdate reconciler0 logger0
       (cpmsWith (Some 1) machinev1.RollingUpdate) obsSparse) world0
  = [CallCreateMachine
       (mkLogger 0
          [("updateStrategy", LStr "RollingUpdate"); ("index", LInt 0);
           ("namespace", LStr "openshift-machine-api"); ("name", LStr "<Unknown>")])
       0].
Proof. repeat split; by vm_compute. Qed.

(** C5 on [obsGaps] with two replicas: the indices 2 and 5 are both
    empty, so both match the first phase; the engine pairs the positions 0
    and 1 of the sorted keys with the keys 0 and 1 and calls CreateMachine
    for index 0, which is no index of the observation. *)
Theorem index_order_gaps :
  obsGaps !! 2 = Some [] ∧ obsGaps !! 5 = Some [] ∧ obsGaps !! 0 = None ∧
  sortMachineInfos obsGaps
  = [default [] (obsGaps !! 0); default [] (obsGaps !! 1)] ∧
  dispatched
    (reconcileMachineRollingUpdate reconciler0 logger0
       (cpmsWith (Some 2) machinev1.RollingUpdate) obsGaps) world0
  = [CallCreateMachine
       (mkLogger 0
          [("updateStrategy", LStr "RollingUpdate"); ("index", LInt 0);
           ("namespace", LStr "openshift-machine-api"); ("name", LStr "<Unknown>")])
       0].
Proof. repeat split; by vm_compute. Qed.

(** ** The strategy dispatcher *)

Lemma FindStatusCondition_Set conditions c :
  meta.FindStatusCondition (meta.SetStatusCondition conditions c) (metav1.Type_ c)
  = Some c.
Proof.
  unfold meta.FindStatusCondition.
  induction conditions as [|c0 rest IH]; simpl.
  - by rewrite filter_cons_True.
  - case_decide as Heq.
    + by rewrite filter_cons_True.
    + by rewrite filter_cons_False.
Qed.

Section Dispatcher.
Context {P : Type} `{!MachineProvider P}.

(** C6: with the strategy Recreate, or any value that is neither
    RollingUpdate nor OnDelete, [reconcileMachineUpdates] returns an empty
    result and a nil error, makes no provider call, and leaves on the
    object a Degraded condition with status True, reason InvalidStrategy
    and a message that begins with "invalid value for spec.strategy.type". *)
Theorem invalid_strategy_degraded r logger cpms obs (w : World P) :
  machinev1.Type_ (machinev1.Strategy (machinev1.Spec cpms)) ≠ machinev1.RollingUpdate →
  machinev1.Type_ (machinev1.Strategy (machinev1.Spec cpms)) ≠ machinev1.OnDelete →
  ∃ cpms' w' c suffix,
    reconcileMachineUpdates r logger cpms obs w
    = (Returned (cpms', (ctrl.zero, None)), w') ∧
    calls w' = calls w ∧ provider w' = provider w ∧
    meta.FindStatusCondition
      (machinev1.Conditions (machinev1.Status cpms')) conditionDegraded = Some c ∧
    metav1.Status c = metav1.ConditionTrue ∧
    metav1.Reason c = reasonInvalidStrategy ∧
    metav1.Message c = invalidStrategyMessage +:+ suffix.
Proof.
  intros Hru Hod. unfold reconcileMachineUpdates.
  apply String.eqb_neq in Hru, Hod. rewrite Hru, Hod.
  destruct (String.eqb _ machinev1.Recreate);
    rewrite Info_run || unfold bind, LogError, ret; simpl;
    eexists _, _, _, _; (split; [reflexivity|]);
    (split; [done|]); (split; [done|]);
    (split; [apply (FindStatusCondition_Set _ (metav1.mkCondition _ _ _ _))|]);
    (split; [done|]); (split; [done|]); simpl; reflexivity.
Qed.

End Dispatcher.

Lemma invalid_strategy_degraded_witness :
  ∃ cpms' w' c suffix,
    reconcileMachineUpdates reconciler0 logger0
      (cpmsWith (Some 3) machinev1.Recreate) obsS1 world0
    = (Returned (cpms', (ctrl.zero, None)), w') ∧
    calls w' = calls world0 ∧ provider w' = provider world0 ∧
    meta.FindStatusCondition
      (machinev1.Conditions (machinev1.Status cpms')) conditionDegraded = Some c ∧
    metav1.Status c = metav1.ConditionTrue ∧
    metav1.Reason c = reasonInvalidStrategy ∧
    metav1.Message c = invalidStrategyMessage +:+ suffix.
Proof.
  apply (invalid_strategy_degraded reconciler0 logger0
           (cpmsWith (Some 3) machinev1.Recreate) obsS1 world0).
  - vm_compute. discriminate.
  - vm_compute. discriminate.
Defined.

(** The message set for Recreate names the strategy. *)
Lemma invalid_strategy_Recreate_message :
  machinev1.Conditions
    (machinev1.Status
       (match (reconcileMachineUpdates reconciler0 logger0
                 (cpmsWith (Some 3) machinev1.Recreate) obsS1 world0).1 with
        | Returned res => res.1
        | Panicked => cpmsWith None ""
        end))
  = [metav1.mkCondition "Degraded" metav1.ConditionTrue "InvalidStrategy"
       ("invalid value for spec.strategy.type: update strategy "
          +:+ strconv_Quote "Recreate" +:+ " is not supported")].
Proof. by vm_compute. Qed.

(** ** The index grouper and the OnDelete engine *)

(** C7 on a list of one machine: the grouper returns the empty map, in
    which the machine appears under no index. *)
Theorem machineInfosByIndex_drops :
  updates_go.machineInfosByIndex [machine "m-0" None true false 0] = ∅ ∧
  updates_go.machineInfosByIndex [machine "m-0" None true false 0]
    !! Index (machine "m-0" None true false 0) = None.
Proof. split; reflexivity. Qed.

(** C8 on S1 under OnDelete with three replicas: index 1 is empty and the
    surge is -1, yet the OnDelete engine makes no call, while the
    rolling-update engine creates a machine for index 1 on the same
    input. *)
Theorem on_delete_fills_nothing :
  obsS1 !! 1 = Some [] ∧
  deviseExistingSurge (cpmsWith (Some 3) machinev1.OnDelete)
    (sortMachineInfos obsS1) = Some (-1) ∧
  reconcileMachineUpdates reconciler0 logger0
    (cpmsWith (Some 3) machinev1.OnDelete) obsS1 world0
  = (Returned (cpmsWith (Some 3) machinev1.OnDelete, (ctrl.zero, None)), world0) ∧
  dispatched
    (reconcileMachineUpdates reconciler0 logger0
       (cpmsWith (Some 3) machinev1.RollingUpdate) obsS1) world0
  = [CallCreateMachine
       (mkLogger 0
          [("updateStrategy", LStr "RollingUpdate"); ("index", LInt 1);
           ("namespace", LStr "openshift-machine-api"); ("name", LStr "<Unknown>")])
       1].
Proof. repeat split; by vm_compute. Qed.

(** * Further properties of the update code *)

(** ** The engine as a decision procedure *)

Lemma rangeFrom_find {A R : Type} (c : A → bool) (body : Z → A → option R) xs idx :
  (∀ i x, c x = false → body i x = None) →
  (∀ i x, c x = true → is_Some (body i x)) →
  rangeFrom idx xs body
  = match list_find (λ x, c x = true) xs with
    | Some (i, x) => body (idx + Z.of_nat i) x
    | None => None
    end.
Proof.
  intros Hno Hyes. revert idx. induction xs as [|x xs IH]; intros idx; [done|].
  simpl. destruct (c x) eqn:Hc.
  - rewrite decide_True by done. simpl. rewrite Z.add_0_r.
    by destruct (Hyes idx x Hc) as [res ->].
  - rewrite decide_False by done. rewrite (Hno idx x Hc), IH.
    destruct (list_find _ xs) as [[i y]|]; simpl; [|done].
    f_equal. lia.
Qed.

Lemma list_find_existsb {A : Type} (c : A → bool) (l : list A) :
  existsb c l = false ↔ list_find (λ x, c x = true) l = None.
Proof.
  rewrite list_find_None. induction l as [|x l IH]; simpl.
  - split; [constructor|done].
  - rewrite orb_false_iff, IH, Forall_cons. by destruct (c x); intuition.
Qed.

Lemma decision_wf sorted : wfDecision (decision sorted).
Proof.
  unfold decision.
  destruct (list_find _ sorted) as [[a ms]|]; [done|].
  destruct (list_find _ sorted) as [[b ms]|].
  { destruct (pendingMachines ms) as [|p ps]; [done|]. by destruct (MachineRef p). }
  destruct (list_find _ sorted) as [[c ms]|]; [|done].
  destruct (needUpdateMachines ms) as [|m rest]; [done|].
  destruct (MachineRef m) as [mref|] eqn:Hm; [|done].
  destruct (hasAny (updatedMachines ms)).
  - by destruct (isDeletedMachine m) as [[|]|].
  - destruct (pendingMachines ms) as [|p ps]; [done|]. by destruct (MachineRef p).
Qed.

Lemma filter_In_head {A : Type} (f : A → bool) (l : list A) x rest :
  List.filter f l = x :: rest → x ∈ l.
Proof.
  intros H. apply list_elem_of_In.
  apply (proj1 (filter_In f x l)). rewrite H. by left.
Qed.

(** The decision [NilMachineRef] is only taken for a machine of the sorted
    observation whose reference is nil. *)
Lemma decision_nil sorted :
  decision sorted = NilMachineRef →
  ∃ (i : nat) machines m,
    sorted !! i = Some machines ∧ m ∈ machines ∧ MachineRef m = None.
Proof.
  unfold decision.
  destruct (list_find _ sorted) as [[a ms]|] eqn:HA; [done|]. clear HA.
  destruct (list_find _ sorted) as [[b ms]|] eqn:HB.
  { apply list_find_Some in HB as (Hb & _ & _).
    destruct (pendingMachines ms) as [|p ps] eqn:Hp; [done|].
    destruct (MachineRef p) eqn:Href; [done|]. intros _.
    exists b, ms, p. split; [done|]. split; [|done]. by eapply filter_In_head. }
  clear HB.
  destruct (list_find _ sorted) as [[c ms]|] eqn:HC; [|done].
  apply list_find_Some in HC as (Hc & _ & _).
  destruct (needUpdateMachines ms) as [|m rest] eqn:Hout; [done|].
  destruct (MachineRef m) as [mref|] eqn:Hm.
  - destruct (hasAny (updatedMachines ms)).
    + unfold isDeletedMachine. rewrite Hm. by destruct (bool_decide _).
    + destruct (pendingMachines ms) as [|p ps] eqn:Hp; [done|].
      destruct (MachineRef p) eqn:Href; [done|]. intros _.
      exists c, ms, p. split; [done|]. split; [|done]. by eapply filter_In_head.
  - intros _. exists c, ms, m. split; [done|]. split; [|done].
    by eapply filter_In_head.
Qed.

Section Refinement.
Context {P : Type} `{!MachineProvider P}.

Lemma engine_decision r logger cpms obs :
  reconcileMachineRollingUpdate r logger cpms obs
  = match deviseExistingSurge cpms (sortMachineInfos obs) with
    | None => panic
    | Some surgeCount =>
        perform (P := P) r logger cpms surgeCount (decision (sortMachineInfos obs))
    end.
Proof.
  unfold reconcileMachineRollingUpdate, range, decision.
  set (sorted := sortMachineInfos obs).
  destruct (deviseExistingSurge cpms sorted) as [surge|]; [|done].
  rewrite (rangeFrom_find empty);
    [|intros i x Hx; by rewrite Hx|intros i x Hx; rewrite Hx; by eexists].
  destruct (list_find (λ x, empty x = true) sorted) as [[i ms]|] eqn:HA.
  { apply list_find_Some in HA as (_ & HA & _). by rewrite Z.add_0_l, HA. }
  clear HA.
  rewrite (rangeFrom_find
             (λ ms, empty (readyMachines ms) && hasAny (pendingMachines ms)));
    [|intros i x Hx; simpl; by rewrite Hx
     |intros i x Hx; simpl; rewrite Hx;
      destruct (pendingMachines x) as [|p ps]; [by eexists|];
      destruct (MachineRef p); by eexists].
  destruct (list_find _ sorted) as [[i ms]|] eqn:HB.
  { apply list_find_Some in HB as (_ & HB & _).
    rewrite Z.add_0_l. simpl in *. rewrite HB.
    apply andb_true_iff in HB as [_ Hp%hasAny_true].
    destruct (pendingMachines ms) as [|p ps]; [done|]. by destruct (MachineRef p). }
  clear HB.
  rewrite (rangeFrom_find (λ ms, hasAny (needUpdateMachines ms)));
    [|intros i x Hx; simpl; by rewrite Hx
     |intros i x Hx; simpl; rewrite Hx; repeat case_match; by eexists].
  destruct (list_find _ sorted) as [[i ms]|] eqn:HC; [|done].
  apply list_find_Some in HC as (_ & HC & _).
  rewrite Z.add_0_l. simpl in *. rewrite HC. apply hasAny_true in HC.
  destruct (needUpdateMachines ms) as [|m rest]; [done|].
  destruct (MachineRef m) as [mref|] eqn:Hm; [|done].
  destruct (hasAny (updatedMachines ms)).
  - unfold isDeletedMachine. rewrite Hm. by destruct (bool_decide _).
  - destruct (hasAny (pendingMachines ms)) eqn:Hp.
    + apply hasAny_true in Hp.
      destruct (pendingMachines ms) as [|p ps]; [done|]. by destruct (MachineRef p).
    + apply hasAny_false in Hp. by rewrite Hp.
Qed.

(** X1: the engine devises the surge, takes the one decision of the
    ordered first-match procedure over the sorted observation and performs
    it; with nil replicas it panics before anything else. *)
Theorem engine_refines_decision r logger cpms obs :
  reconcileMachineRollingUpdate r logger cpms obs
  = match deviseExistingSurge cpms (sortMachineInfos obs) with
    | None => panic
    | Some surgeCount =>
        perform (P := P) r logger cpms surgeCount (decision (sortMachineInfos obs))
    end.
Proof. apply engine_decision. Qed.

Lemma perform_calls r logger cpms surge d (w : World P) :
  calls (perform r logger cpms surge d w).2
  = calls w ++ callsOf r logger cpms surge d.
Proof.
  destruct d; simpl; try by rewrite app_nil_r.
  - unfold createMachine, bind, ret, callCreateMachine. case_bool_decide.
    + by destruct (CreateMachine _ _ _) as [p [err|]].
    + simpl. by rewrite app_nil_r.
  - apply deleteMachine_run.
Qed.

Lemma engine_calls r logger cpms obs (w : World P) :
  dispatched (reconcileMachineRollingUpdate r logger cpms obs) w
  = match deviseExistingSurge cpms (sortMachineInfos obs) with
    | None => []
    | Some surge => callsOf r logger cpms surge (decision (sortMachineInfos obs))
    end.
Proof.
  rewrite engine_decision.
  destruct (deviseExistingSurge cpms _) as [surge|].
  - apply dispatched_app, perform_calls.
  - apply dispatched_app. by rewrite app_nil_r.
Qed.

(** A decision either is [NilMachineRef], and performing it panics before
    any effect, or is performed to the end with the empty result. *)
Lemma perform_outcome r logger cpms surge d (w : World P) :
  wfDecision d →
  (d = NilMachineRef ∧ perform r logger cpms surge d w = (Panicked, w))
  ∨ (d ≠ NilMachineRef ∧
     ∃ err, (perform r logger cpms surge d w).1 = Returned (ctrl.zero, err)).
Proof.
  intros Hwf. destruct d; simpl; try (by left); right; (split; [done|]);
    try by eexists.
  - unfold createMachine, bind, ret, callCreateMachine. case_bool_decide.
    + destruct (CreateMachine _ _ _) as [p [err|]]; by eexists.
    + by eexists.
  - simpl in Hwf. unfold deleteMachine, bind, callDeleteMachine. rewrite Hwf.
    destruct (DeleteMachine _ _ _) as [p [err|]]; by eexists.
Qed.

Lemma perform_propagates r logger cpms surge d (w : World P) :
  wfDecision d →
  Propagates (perform r logger cpms surge d) w.
Proof.
  intros Hwf. unfold Propagates.
  rewrite (dispatched_app _ _ _ (perform_calls r logger cpms surge d w)).
  destruct d; simpl; try (split; [done|by right]).
  - unfold createMachine, bind, ret, callCreateMachine. case_bool_decide; simpl.
    + destruct (CreateMachine _ _ _) as [p [err|]]; simpl; [|done].
      split; [done|]. eexists. split; [done|]. eexists _, _. by rewrite last_snoc.
    + split; [done|by right].
  - simpl in Hwf. unfold deleteMachine, bind, callDeleteMachine. rewrite Hwf.
    destruct (DeleteMachine _ _ _) as [p [err|]]; simpl; [|done].
    split; [done|]. eexists. split; [done|]. eexists _, _. by rewrite last_snoc.
  - split; [done|by left].
Qed.

Lemma engine_outcome r logger cpms obs (w : World P) :
  match machinev1.Replicas (machinev1.Spec cpms) with
  | None => reconcileMachineRollingUpdate r logger cpms obs w = (Panicked, w)
  | Some _ =>
      (∃ err,
         (reconcileMachineRollingUpdate r logger cpms obs w).1
         = Returned (ctrl.zero, err))
      ∨ (reconcileMachineRollingUpdate r logger cpms obs w = (Panicked, w) ∧
         ∃ (k : Z) machines m,
           obs !! k = Some machines ∧ m ∈ machines ∧ MachineRef m = None)
  end.
Proof.
  rewrite engine_decision. unfold deviseExistingSurge.
  destruct (machinev1.Replicas _) as [n|]; [|done].
  match goal with
  | |- context [perform r logger cpms ?s] =>
      destruct (perform_outcome r logger cpms s (decision (sortMachineInfos obs)) w
                  (decision_wf _)) as [[Hd Hrun]|[_ Hret]]
  end; [right|by left].
  split; [done|].
  destruct (decision_nil _ Hd) as (i & machines & m & Hi & Hm & Href).
  exists (int32 (Z.of_nat i)), machines, m. split; [|done].
  apply sortMachineInfos_lookup_nonempty; [done|]. intros ->.
  by apply elem_of_nil in Hm.
Qed.

(** X8: with nil replicas the engine panics before any effect.  With
    replicas set it either returns the empty result, or panics before any
    effect because a machine of the observation has a nil MachineRef; so
    with every MachineRef set it always returns, and the accesses
    [machinesPending[0]] and [outdatedMs[0]] never go out of range. *)
Theorem engine_panics_only_on_nil_pointer r logger cpms obs (w : World P) :
  match machinev1.Replicas (machinev1.Spec cpms) with
  | None => reconcileMachineRollingUpdate r logger cpms obs w = (Panicked, w)
  | Some _ =>
      (∃ err,
         (reconcileMachineRollingUpdate r logger cpms obs w).1
         = Returned (ctrl.zero, err))
      ∨ (reconcileMachineRollingUpdate r logger cpms obs w = (Panicked, w) ∧
         ∃ (k : Z) machines m,
           obs !! k = Some machines ∧ m ∈ machines ∧ MachineRef m = None)
  end.
Proof. apply engine_outcome. Qed.

(** X9: an invocation makes no call or one call.  Without a call the
    provider is untouched and no error is returned; with a call the
    provider is left as the call left it, and an error is returned exactly
    when the provider reported one: the returned error wraps the
    provider's and is the one of the last log line. *)
Theorem provider_answer_propagates r logger cpms obs (w : World P) :
  Propagates (reconcileMachineRollingUpdate r logger cpms obs) w.
Proof.
  rewrite engine_decision.
  destruct (deviseExistingSurge cpms _) as [surge|];
    [apply perform_propagates, decision_wf|].
  unfold Propagates. rewrite (dispatched_app _ _ []) by (by rewrite app_nil_r).
  split; [done|by left].
Qed.

End Refinement.

(** X10: the calls of an invocation are a function of the reconciler, the
    logger, the object and the observation alone: two providers, in any
    two worlds, are asked the same. *)
Theorem calls_independent_of_provider
    {P1 P2 : Type} `{!MachineProvider P1} `{!MachineProvider P2}
    r logger cpms obs (w1 : World P1) (w2 : World P2) :
  dispatched (reconcileMachineRollingUpdate r logger cpms obs) w1
  = dispatched (reconcileMachineRollingUpdate r logger cpms obs) w2.
Proof. by rewrite !engine_calls. Qed.

(** ** Classifiers *)

Lemma filter_sublist {A : Type} (f : A → bool) (l : list A) :
  List.filter f l `sublist_of` l.
Proof.
  induction l as [|x l IH]; simpl; [constructor|].
  destruct (f x); by constructor.
Qed.

Lemma updatedMachines_readyMachines ms :
  updatedMachines ms = List.filter (λ m, negb (NeedsUpdate m)) (readyMachines ms).
Proof.
  unfold updatedMachines, readyMachines.
  induction ms as [|m ms IH]; simpl; [done|].
  destruct (Ready m) eqn:Hr, (NeedsUpdate m) eqn:Hu; simpl;
    rewrite ?Hr, ?Hu; simpl; congruence.
Qed.

(** X2: the classifiers split a sequence three ways: every machine is
    updated, pending or outdated, and in one class only. *)
Theorem classifiers_partition ms :
  updatedMachines ms ++ pendingMachines ms ++ needUpdateMachines ms ≡ₚ ms.
Proof.
  unfold updatedMachines, pendingMachines, needUpdateMachines.
  induction ms as [|m ms IH]; simpl; [done|].
  destruct (Ready m), (NeedsUpdate m); simpl.
  - rewrite app_assoc, <- Permutation_middle, <- app_assoc. by constructor.
  - by constructor.
  - rewrite app_assoc, <- Permutation_middle, <- app_assoc. by constructor.
  - rewrite <- Permutation_middle. by constructor.
Qed.

(** X3: the classifiers keep the order of their input and add nothing:
    each result is a subsequence of the input, and the updated machines
    are a subsequence of the ready ones. *)
Theorem classifiers_preserve_order ms :
  needUpdateMachines ms `sublist_of` ms ∧
  pendingMachines ms `sublist_of` ms ∧
  readyMachines ms `sublist_of` ms ∧
  updatedMachines ms `sublist_of` readyMachines ms.
Proof.
  repeat split; try apply filter_sublist.
  rewrite updatedMachines_readyMachines. apply filter_sublist.
Qed.

(** ** The sorted observation and the surge *)

Lemma sortMachineInfos_positions obs :
  Z.of_nat (size obs) ≤ 2 ^ 31 →
  sortMachineInfos obs
  = (λ i, default [] (obs !! i)) <$> seqZ 0 (Z.of_nat (size obs)).
Proof.
  intros Hn. apply list_eq. intros i.
  rewrite list_lookup_fmap.
  destruct (decide (i < size obs)%nat) as [Hi|Hi].
  - rewrite lookup_seqZ_lt by lia. simpl.
    apply sortMachineInfos_lookup. split; [done|].
    by rewrite int32_small by lia.
  - rewrite lookup_seqZ_ge by lia. simpl.
    apply lookup_ge_None. rewrite sortMachineInfos_length. lia.
Qed.

(** X4: for an observation of n keys (n at most 2^31), whatever the keys
    are, the sorted list has n entries and entry i is the sequence under
    the key i, or empty when i is no key. *)
Theorem sorted_reads_positions obs :
  Z.of_nat (size obs) ≤ 2 ^ 31 →
  sortMachineInfos obs
  = (λ i, default [] (obs !! i)) <$> seqZ 0 (Z.of_nat (size obs)).
Proof. apply sortMachineInfos_positions. Qed.

(** X5: on an observation whose keys are 0 .. n-1 the sorted list holds,
    in ascending key order, the sequence of every key. *)
Theorem sorted_dense_ascending obs :
  dense obs → Z.of_nat (size obs) ≤ 2 ^ 31 →
  length (sortMachineInfos obs) = size obs ∧
  ∀ (i : nat), (i < size obs)%nat → sortMachineInfos obs !! i = obs !! Z.of_nat i.
Proof.
  intros Hd Hn. split; [apply sortMachineInfos_length|].
  intros i Hi. by apply sortMachineInfos_dense.
Qed.

Section OtherKeys.
Context {P : Type} `{!MachineProvider P}.

(** X6: the machines under a key that is not among 0 .. n-1 are invisible
    to the engine: replacing their sequence changes nothing of what an
    invocation does. *)
Theorem other_keys_invisible r logger cpms obs k ms :
  Z.of_nat (size obs) ≤ 2 ^ 31 →
  is_Some (obs !! k) →
  ¬ (0 ≤ k < Z.of_nat (size obs)) →
  reconcileMachineRollingUpdate (P := P) r logger cpms (<[k := ms]> obs)
  = reconcileMachineRollingUpdate r logger cpms obs.
Proof.
  intros Hn [old Hold] Hk.
  assert (size (<[k := ms]> obs) = size obs) as Hsize.
  { apply map_size_insert_Some. by eexists. }
  assert (sortMachineInfos (<[k := ms]> obs) = sortMachineInfos obs) as Hsorted.
  { rewrite !sortMachineInfos_positions by (rewrite ?Hsize; done).
    rewrite Hsize. apply list_fmap_ext. intros i x Hx.
    apply lookup_seqZ in Hx as [-> Hi].
    rewrite lookup_insert_ne; [done|]. lia. }
  unfold reconcileMachineRollingUpdate. by rewrite Hsorted.
Qed.

End OtherKeys.

Lemma observed_delete (obs : gmap Z (list MachineInfo)) k ms :
  obs !! k = Some ms →
  sum_list_with (λ kv, length kv.2) (map_to_list obs)
  = (length ms + sum_list_with (λ kv, length kv.2) (map_to_list (delete k obs)))%nat.
Proof.
  intros Hk. by rewrite <- (map_to_list_delete obs k ms Hk).
Qed.

Lemma sum_list_with_ext_in {A : Type} (f g : A → nat) (l : list A) :
  (∀ x, x ∈ l → f x = g x) → sum_list_with f l = sum_list_with g l.
Proof.
  induction l as [|x l IH]; intros H; simpl; [done|].
  rewrite (H x) by left. rewrite IH; [done|]. intros y Hy. apply H. by right.
Qed.

(** The machines under any keys without repetition are at most the
    machines of the observation. *)
Lemma sum_keys_le (ks : list Z) (obs : gmap Z (list MachineInfo)) :
  NoDup ks →
  (sum_list_with (λ k, length (default [] (obs !! k))) ks
   ≤ sum_list_with (λ kv, length kv.2) (map_to_list obs))%nat.
Proof.
  intros Hnd. revert obs. induction Hnd as [|k ks Hk Hnd IH]; intros obs; simpl; [lia|].
  destruct (obs !! k) as [ms|] eqn:Hobs; simpl.
  - rewrite (observed_delete obs k ms Hobs).
    apply Nat.add_le_mono_l.
    rewrite (sum_list_with_ext_in _ (λ k', length (default [] (delete k obs !! k')))).
    + apply IH.
    + intros k' Hk'. rewrite lookup_delete_ne; [done|]. by intros ->.
  - apply IH.
Qed.

(** X7: with replicas set and at most 2^31 keys, the surge the engine
    devises never exceeds the number of observed machines minus the
    desired replicas, and is equal to it when the keys are 0 .. n-1. *)
Theorem surge_never_overestimated cpms obs n :
  Z.of_nat (size obs) ≤ 2 ^ 31 →
  machinev1.Replicas (machinev1.Spec cpms) = Some n →
  ∃ s,
    deviseExistingSurge cpms (sortMachineInfos obs) = Some s ∧
    s ≤ observedMachines obs - n ∧
    (dense obs → s = observedMachines obs - n).
Proof.
  intros Hn Hrep. eexists. split; [|split].
  - unfold deviseExistingSurge. by rewrite Hrep.
  - rewrite foldl_length_sum, Z.add_0_l, sortMachineInfos_positions by done.
    unfold observedMachines.
    rewrite (sum_list_with_fmap_ext _ _ (λ k, length (default [] (obs !! k)))) by done.
    pose proof (sum_keys_le (seqZ 0 (Z.of_nat (size obs))) obs (NoDup_seqZ _ _)).
    lia.
  - intros Hd.
    pose proof (deviseExistingSurge_dense cpms obs n Hd Hn Hrep) as Hs.
    unfold deviseExistingSurge in Hs. rewrite Hrep in Hs. by injection Hs.
Qed.

Lemma surge_never_overestimated_witness :
  ∃ s,
    deviseExistingSurge (cpmsWith (Some 1) machinev1.RollingUpdate)
      (sortMachineInfos obsSparse) = Some s ∧
    s ≤ observedMachines obsSparse - 1 ∧
    (dense obsSparse → s = observedMachines obsSparse - 1).
Proof.
  apply (surge_never_overestimated (cpmsWith (Some 1) machinev1.RollingUpdate)
           obsSparse 1).
  - vm_compute. discriminate.
  - reflexivity.
Defined.

Lemma sorted_reads_positions_witness :
  sortMachineInfos obsFar
  = (λ i, default [] (obsFar !! i)) <$> seqZ 0 (Z.of_nat (size obsFar)).
Proof.
  apply (sorted_reads_positions obsFar). vm_compute. discriminate.
Defined.

Lemma dense_3 (obs : gmap Z (list MachineInfo)) :
  dom obs = {[0; 1; 2]} → dense obs.
Proof.
  intros Hdom k.
  assert (size obs = 3%nat) as ->.
  { rewrite <- size_dom, Hdom. by vm_compute. }
  rewrite <- elem_of_dom, Hdom, !elem_of_union, !elem_of_singleton. lia.
Qed.

Lemma sorted_dense_ascending_witness :
  length (sortMachineInfos obsS4) = size obsS4 ∧
  ∀ (i : nat), (i < size obsS4)%nat →
    sortMachineInfos obsS4 !! i = obsS4 !! Z.of_nat i.
Proof.
  apply (sorted_dense_ascending obsS4).
  - apply dense_3. by vm_compute.
  - vm_compute. discriminate.
Defined.

Lemma other_keys_invisible_witness :
  reconcileMachineRollingUpdate (P := unit) reconciler0 logger0
    (cpmsWith (Some 2) machinev1.RollingUpdate) (<[7 := []]> obsFar)
  = reconcileMachineRollingUpdate reconciler0 logger0
      (cpmsWith (Some 2) machinev1.RollingUpdate) obsFar.
Proof.
  apply (other_keys_invisible reconciler0 logger0
           (cpmsWith (Some 2) machinev1.RollingUpdate) obsFar 7 []).
  - vm_compute. discriminate.
  - by eexists.
  - intros [_ H]. vm_compute in H. discriminate H.
Defined.

(** ** The phases of the rolling update, one by one *)

Lemma firstIndexWhere_find c sorted i machines :
  firstIndexWhere c sorted i machines ↔
  list_find (λ x, c x = true) sorted = Some (i, machines).
Proof.
  unfold firstIndexWhere. rewrite list_find_Some.
  split; intros (Hi & Hc & Hlt); repeat split; try done; intros j ms Hj Hji.
  - rewrite (Hlt j ms Hj Hji). done.
  - apply not_true_is_false. by apply (Hlt j ms).
Qed.

Lemma decision_fill sorted i machines :
  firstIndexWhere empty sorted i machines →
  decision sorted = CreateAt i "<Unknown>".
Proof. intros H%firstIndexWhere_find. unfold decision. by rewrite H. Qed.

Lemma decision_wait_ready sorted i machines p ps :
  fillsMissingIndex sorted = false →
  firstIndexWhere
    (λ ms, empty (readyMachines ms) && hasAny (pendingMachines ms)) sorted i machines →
  pendingMachines machines = p :: ps →
  decision sorted
  = match MachineRef p with
    | Some ref => WaitForReady i ref
    | None => NilMachineRef
    end.
Proof.
  intros HA%list_find_existsb HB%firstIndexWhere_find Hp. unfold decision.
  simpl in HB. by rewrite HA, HB, Hp.
Qed.

Lemma decision_outdated sorted i machines m rest ref :
  fillsMissingIndex sorted = false →
  waitsForReady sorted = false →
  firstIndexWhere (λ ms, hasAny (needUpdateMachines ms)) sorted i machines →
  needUpdateMachines machines = m :: rest →
  MachineRef m = Some ref →
  decision sorted
  = if hasAny (updatedMachines machines) then
      if bool_decide (metav1.DeletionTimestamp (ObjectMeta ref) ≠ None)
      then WaitForRemoved i ref
      else DeleteAt i m ref
    else
      match pendingMachines machines with
      | p :: _ =>
          match MachineRef p with
          | Some pref => WaitForReplacement i ref pref
          | None => NilMachineRef
          end
      | [] => CreateAt i (refName ref)
      end.
Proof.
  intros HA%list_find_existsb HB%list_find_existsb HC%firstIndexWhere_find Hout Href.
  unfold decision, isDeletedMachine. simpl in HB, HC.
  rewrite HA, HB, HC, Hout, Href.
  destruct (hasAny (updatedMachines machines)); [|done].
  by destruct (bool_decide _).
Qed.

Lemma decision_converged sorted :
  fillsMissingIndex sorted = false →
  waitsForReady sorted = false →
  advancesOutdated sorted = false →
  decision sorted = NoUpdatesRequired.
Proof.
  intros HA%list_find_existsb HB%list_find_existsb HC%list_find_existsb.
  unfold decision. simpl in HB, HC. by rewrite HA, HB, HC.
Qed.

Lemma decision_CreateAt sorted i name :
  decision sorted = CreateAt i name →
  ∃ machines,
    sorted !! i = Some machines ∧
    updatedMachines machines = [] ∧ pendingMachines machines = [].
Proof.
  unfold decision.
  destruct (list_find _ sorted) as [[a ms]|] eqn:HA.
  { intros [= <- _]. apply list_find_Some in HA as (Ha & ->%empty_true & _).
    by exists []. }
  clear HA.
  destruct (list_find _ sorted) as [[b ms]|] eqn:HB.
  { destruct (pendingMachines ms) as [|p ps]; [done|]. by destruct (MachineRef p). }
  clear HB.
  destruct (list_find _ sorted) as [[c ms]|] eqn:HC; [|done].
  apply list_find_Some in HC as (Hc & _ & _).
  destruct (needUpdateMachines ms) as [|m rest]; [done|].
  destruct (MachineRef m) as [mref|]; [|done].
  destruct (hasAny (updatedMachines ms)) eqn:Hupd.
  { by destruct (isDeletedMachine m) as [[|]|]. }
  destruct (pendingMachines ms) as [|p ps] eqn:Hp;
    [|by destruct (MachineRef p)].
  intros [= <- _]. exists ms. by apply hasAny_false in Hupd.
Qed.

Section Phases.
Context {P : Type} `{!MachineProvider P}.

(** X11: the lowest position without a machine gets a CreateMachine call
    when the devised surge is below [maxSurge], whatever the other indices
    hold. *)
Theorem fill_lowest_missing_index r logger cpms obs (w : World P) i machines s :
  firstIndexWhere empty (sortMachineInfos obs) i machines →
  deviseExistingSurge cpms (sortMachineInfos obs) = Some s →
  s < 1 →
  dispatched (reconcileMachineRollingUpdate r logger cpms obs) w
  = [CallCreateMachine (indexLogger r logger cpms i "<Unknown>") (int32 (Z.of_nat i))].
Proof.
  intros Hfirst Hs Hlt. rewrite engine_calls, Hs, (decision_fill _ _ _ Hfirst).
  simpl. by rewrite bool_decide_true.
Qed.

(** X12: when no position is empty, the first position with no ready
    machine and a pending one ends the invocation, whatever deletions or
    creations other positions would allow: it reads the MachineRef of the
    first pending machine, and either logs "Waiting for machine to become
    ready" under that machine's name and returns success without any
    call, or, if the reference is nil, panics before any effect. *)
Theorem pending_index_blocks_actions r logger cpms obs (w : World P)
    n i machines p ps :
  machinev1.Replicas (machinev1.Spec cpms) = Some n →
  fillsMissingIndex (sortMachineInfos obs) = false →
  firstIndexWhere
    (λ ms, empty (readyMachines ms) && hasAny (pendingMachines ms))
    (sortMachineInfos obs) i machines →
  pendingMachines machines = p :: ps →
  match MachineRef p with
  | Some ref =>
      reconcileMachineRollingUpdate r logger cpms obs w
      = (Returned (ctrl.zero, None),
         mkWorld (provider w) (calls w)
           (logs w
              ++ [mkLogLine (V 2 (indexLogger r logger cpms i (refName ref)))
                    None waitingForReady]))
  | None => reconcileMachineRollingUpdate r logger cpms obs w = (Panicked, w)
  end.
Proof.
  intros Hrep HA HB Hp. rewrite engine_decision.
  unfold deviseExistingSurge. rewrite Hrep.
  rewrite (decision_wait_ready _ _ _ _ _ HA HB Hp).
  by destruct (MachineRef p).
Qed.

(** X13: when the first two loops do not return and the first position
    with an outdated machine also has an updated machine, its first
    outdated machine, when its MachineRef is set and carries no deletion
    timestamp, is deleted through DeleteMachine, whatever the surge is. *)
Theorem delete_ignores_surge r logger cpms obs (w : World P)
    i machines m rest ref :
  is_Some (machinev1.Replicas (machinev1.Spec cpms)) →
  fillsMissingIndex (sortMachineInfos obs) = false →
  waitsForReady (sortMachineInfos obs) = false →
  firstIndexWhere (λ ms, hasAny (needUpdateMachines ms))
    (sortMachineInfos obs) i machines →
  needUpdateMachines machines = m :: rest →
  MachineRef m = Some ref →
  metav1.DeletionTimestamp (ObjectMeta ref) = None →
  hasAny (updatedMachines machines) = true →
  dispatched (reconcileMachineRollingUpdate r logger cpms obs) w
  = [CallDeleteMachine (indexLogger r logger cpms i (refName ref)) (Some ref)].
Proof.
  intros [n Hrep] HA HB HC Hout Href Hdel Hupd. rewrite engine_calls.
  unfold deviseExistingSurge. rewrite Hrep.
  rewrite (decision_outdated _ _ _ _ _ _ HA HB HC Hout Href), Hupd, Hdel.
  simpl. by rewrite Href.
Qed.



(** X22: a create that the surge does not allow ends the invocation in
    silence.  When the first empty position, or else the first outdated
    position (first machine's MachineRef set, no updated and no pending
    machine), is reached at a devised surge of [maxSurge] or more, the
    invocation returns success and leaves the world as it was: no call, no
    log line, nothing for any other position. *)
Theorem blocked_create_is_silent r logger cpms obs (w : World P) s :
  deviseExistingSurge cpms (sortMachineInfos obs) = Some s →
  1 ≤ s →
  (∃ i machines, firstIndexWhere empty (sortMachineInfos obs) i machines)
  ∨ (fillsMissingIndex (sortMachineInfos obs) = false ∧
     waitsForReady (sortMachineInfos obs) = false ∧
     ∃ i machines m rest ref,
       firstIndexWhere (λ ms, hasAny (needUpdateMachines ms))
         (sortMachineInfos obs) i machines ∧
       needUpdateMachines machines = m :: rest ∧
       MachineRef m = Some ref ∧
       updatedMachines machines = [] ∧ pendingMachines machines = []) →
  reconcileMachineRollingUpdate r logger cpms obs w
  = (Returned (ctrl.zero, None), w).
Proof.
  intros Hs Hge Hcase. rewrite engine_decision, Hs.
  assert (∃ i name, decision (sortMachineInfos obs) = CreateAt i name)
    as (i & name & ->).
  { destruct Hcase as [(i & machines & HA)
                      |(HA & HB & i & machines & m & rest & ref
                        & HC & Hout & Href & Hupd & Hpend)].
    - exists i, "<Unknown>". by eapply decision_fill.
    - exists i, (refName ref).
      by rewrite (decision_outdated _ _ _ _ _ _ HA HB HC Hout Href), Hupd, Hpend. }
  simpl. unfold createMachine, bind, ret.
  by rewrite bool_decide_false by lia.
Qed.

(** X16: when no position is empty, none waits for a pending machine and
    none holds an outdated machine, the invocation only logs "No updates
    required" and returns success; invoked again on the same observation it
    does the same, so no call is ever made. *)
Theorem converged_is_quiet r logger cpms obs (w : World P) n :
  machinev1.Replicas (machinev1.Spec cpms) = Some n →
  fillsMissingIndex (sortMachineInfos obs) = false →
  waitsForReady (sortMachineInfos obs) = false →
  advancesOutdated (sortMachineInfos obs) = false →
  let line := mkLogLine (V 4 (strategyLogger logger cpms)) None noUpdatesRequired in
  reconcileMachineRollingUpdate r logger cpms obs w
  = (Returned (ctrl.zero, None),
     mkWorld (provider w) (calls w) (logs w ++ [line])) ∧
  reconcileMachineRollingUpdate r logger cpms obs
    (reconcileMachineRollingUpdate r logger cpms obs w).2
  = (Returned (ctrl.zero, None),
     mkWorld (provider w) (calls w) ((logs w ++ [line]) ++ [line])).
Proof.
  intros Hrep HA HB HC line. rewrite engine_decision.
  unfold deviseExistingSurge. rewrite Hrep.
  by rewrite (decision_converged _ HA HB HC).
Qed.

(** X17: a CreateMachine call is only made for an index at which the
    observation holds no updated and no pending machine, and only when the
    devised surge is below [maxSurge]. *)
Theorem create_only_without_replacement r logger cpms obs (w : World P) lg idx :
  CallCreateMachine lg idx
    ∈ dispatched (reconcileMachineRollingUpdate r logger cpms obs) w →
  updatedMachines (default [] (obs !! idx)) = [] ∧
  pendingMachines (default [] (obs !! idx)) = [] ∧
  ∃ s, deviseExistingSurge cpms (sortMachineInfos obs) = Some s ∧ s < 1.
Proof.
  rewrite engine_calls.
  destruct (deviseExistingSurge cpms _) as [s|]; [|by intros ?%elem_of_nil].
  destruct (decision (sortMachineInfos obs)) as [i name| | | | | |] eqn:Hd; simpl;
    try (by intros ?%elem_of_nil);
    [|intros Hin%list_elem_of_singleton; discriminate Hin].
  case_bool_decide as Hs; [|by intros ?%elem_of_nil].
  intros [= -> ->]%list_elem_of_singleton.
  destruct (decision_CreateAt _ _ _ Hd) as (machines & Hi & Hupd & Hpend).
  apply sortMachineInfos_lookup in Hi as [_ ->].
  repeat split; try done. by exists s.
Qed.

End Phases.

Lemma fill_lowest_missing_index_witness :
  dispatched
    (reconcileMachineRollingUpdate reconciler0 logger0
       (cpmsWith (Some 3) machinev1.RollingUpdate) obsS1) world0
  = [CallCreateMachine
       (indexLogger reconciler0 logger0 (cpmsWith (Some 3) machinev1.RollingUpdate)
          1 "<Unknown>")
       (int32 (Z.of_nat 1))].
Proof.
  apply (fill_lowest_missing_index reconciler0 logger0
           (cpmsWith (Some 3) machinev1.RollingUpdate) obsS1 world0 1 [] (-1)).
  - apply firstIndexWhere_find. by vm_compute.
  - by vm_compute.
  - lia.
Defined.

Lemma pending_index_blocks_actions_witness :
  match MachineRef (machine "m-1" None false false 1) with
  | Some ref =>
      reconcileMachineRollingUpdate reconciler0 logger0
        (cpmsWith (Some 3) machinev1.RollingUpdate) obsS2 world0
      = (Returned (ctrl.zero, None),
         mkWorld (provider world0) (calls world0)
           (logs world0
              ++ [mkLogLine
                    (V 2 (indexLogger reconciler0 logger0
                            (cpmsWith (Some 3) machinev1.RollingUpdate) 1
                            (refName ref)))
                    None waitingForReady]))
  | None =>
      reconcileMachineRollingUpdate reconciler0 logger0
        (cpmsWith (Some 3) machinev1.RollingUpdate) obsS2 world0
      = (Panicked, world0)
  end.
Proof.
  apply (pending_index_blocks_actions reconciler0 logger0
           (cpmsWith (Some 3) machinev1.RollingUpdate) obsS2 world0 3 1
           [machine "m-1" None false false 1]
           (machine "m-1" None false false 1) []).
  - reflexivity.
  - by vm_compute.
  - apply firstIndexWhere_find. by vm_compute.
  - by vm_compute.
Defined.

(** On S2 with a nil MachineRef at the pending machine the invocation
    panics, with replicas set. *)
Lemma scenario_nil_ref_panics :
  reconcileMachineRollingUpdate reconciler0 logger0
    (cpmsWith (Some 3) machinev1.RollingUpdate) obsNilRef world0
  = (Panicked, world0).
Proof. by vm_compute. Qed.

Lemma delete_ignores_surge_witness :
  dispatched
    (reconcileMachineRollingUpdate reconciler0 logger0
       (cpmsWith (Some 3) machinev1.RollingUpdate) obsS4) world0
  = [CallDeleteMachine
       (indexLogger reconciler0 logger0 (cpmsWith (Some 3) machinev1.RollingUpdate)
          0 (refName (mkObjectRef (metav1.mkObjectMeta "m-0" "openshift-machine-api" None))))
       (Some (mkObjectRef (metav1.mkObjectMeta "m-0" "openshift-machine-api" None)))].
Proof.
  apply (delete_ignores_surge reconciler0 logger0
           (cpmsWith (Some 3) machinev1.RollingUpdate) obsS4 world0 0
           [machine "m-0" None true true 0; machine "m-0-new" None true false 0]
           (machine "m-0" None true true 0) []).
  - by eexists.
  - by vm_compute.
  - by vm_compute.
  - apply firstIndexWhere_find. by vm_compute.
  - by vm_compute.
  - reflexivity.
  - reflexivity.
  - by vm_compute.
Defined.



Lemma blocked_create_is_silent_witness :
  reconcileMachineRollingUpdate reconciler0 logger0
    (cpmsWith (Some 3) machinev1.RollingUpdate) obsBlocked world0
  = (Returned (ctrl.zero, None), world0).
Proof.
  apply (blocked_create_is_silent reconciler0 logger0
           (cpmsWith (Some 3) machinev1.RollingUpdate) obsBlocked world0 1).
  - by vm_compute.
  - lia.
  - right. split; [by vm_compute|]. split; [by vm_compute|].
    exists 0%nat, [machine "m-0" None true true 0], (machine "m-0" None true true 0),
      [], (mkObjectRef (metav1.mkObjectMeta "m-0" "openshift-machine-api" None)).
    split; [apply firstIndexWhere_find; by vm_compute|].
    repeat split; by vm_compute.
Defined.

Lemma converged_is_quiet_witness :
  let cpms := cpmsWith (Some 3) machinev1.RollingUpdate in
  let line := mkLogLine (V 4 (strategyLogger logger0 cpms)) None noUpdatesRequired in
  reconcileMachineRollingUpdate reconciler0 logger0 cpms obsConverged world0
  = (Returned (ctrl.zero, None),
     mkWorld (provider world0) (calls world0) (logs world0 ++ [line])) ∧
  reconcileMachineRollingUpdate reconciler0 logger0 cpms obsConverged
    (reconcileMachineRollingUpdate reconciler0 logger0 cpms obsConverged world0).2
  = (Returned (ctrl.zero, None),
     mkWorld (provider world0) (calls world0) ((logs world0 ++ [line]) ++ [line])).
Proof.
  apply (converged_is_quiet reconciler0 logger0
           (cpmsWith (Some 3) machinev1.RollingUpdate) obsConverged world0 3).
  - reflexivity.
  - by vm_compute.
  - by vm_compute.
  - by vm_compute.
Defined.

Lemma create_only_without_replacement_witness :
  updatedMachines (default [] (obsS1 !! 1)) = [] ∧
  pendingMachines (default [] (obsS1 !! 1)) = [] ∧
  ∃ s,
    deviseExistingSurge (cpmsWith (Some 3) machinev1.RollingUpdate)
      (sortMachineInfos obsS1) = Some s ∧ s < 1.
Proof.
  apply (create_only_without_replacement reconciler0 logger0
           (cpmsWith (Some 3) machinev1.RollingUpdate) obsS1 world0
           (indexLogger reconciler0 logger0
              (cpmsWith (Some 3) machinev1.RollingUpdate) 1 "<Unknown>")
           1).
  vm_compute. left.
Defined.

(** ** The entry point and createMachine *)

Section EntryPoint.
Context {P : Type} `{!MachineProvider P}.

(** X18: at the entry point, for every strategy value: at most one call is
    made; the result is empty; the spec of the object is never changed and
    its status only under an invalid strategy; and a panic only happens
    under RollingUpdate, with nil replicas or with a machine of the
    observation whose MachineRef is nil. *)
Theorem entry_point_frame r logger cpms obs (w : World P) :
  let ty := machinev1.Type_ (machinev1.Strategy (machinev1.Spec cpms)) in
  (∃ cs : list Call,
     calls (reconcileMachineUpdates r logger cpms obs w).2 = calls w ++ cs ∧
     (length cs ≤ 1)%nat) ∧
  match (reconcileMachineUpdates r logger cpms obs w).1 with
  | Returned (cpms', (res, _)) =>
      res = ctrl.zero ∧
      machinev1.Spec cpms' = machinev1.Spec cpms ∧
      (ty = machinev1.RollingUpdate ∨ ty = machinev1.OnDelete → cpms' = cpms)
  | Panicked =>
      ty = machinev1.RollingUpdate ∧
      (machinev1.Replicas (machinev1.Spec cpms) = None
       ∨ ∃ (k : Z) machines m,
           obs !! k = Some machines ∧ m ∈ machines ∧ MachineRef m = None)
  end.
Proof.
  intros ty. unfold reconcileMachineUpdates. fold ty.
  destruct (String.eqb ty machinev1.RollingUpdate) eqn:Hru.
  { apply String.eqb_eq in Hru. unfold withCPMS, bind.
    destruct (rolling_update_dispatch r logger cpms obs w) as (cs & Hcs & Hd).
    pose proof (engine_outcome r logger cpms obs w) as Hout.
    destruct (reconcileMachineRollingUpdate r logger cpms obs w) as [[[res err]|] w']
      eqn:Hrun; simpl in *;
      (split; [exists cs; split; [done|destruct Hd; simpl; lia]|]).
    - destruct (machinev1.Replicas _); [|done].
      destruct Hout as [[err' [= -> _]]|[[=] _]]. done.
    - split; [done|]. destruct (machinev1.Replicas _); [|by left].
      destruct Hout as [[err' [=]]|[_ Hnil]]. by right. }
  destruct (String.eqb ty machinev1.OnDelete) eqn:Hod.
  { unfold withCPMS, reconcileMachineOnDeleteUpdate, bind, ret. simpl.
    split; [|by repeat split].
    exists []. split; [by rewrite app_nil_r|simpl; lia]. }
  apply String.eqb_neq in Hru, Hod.
  destruct (String.eqb ty machinev1.Recreate); unfold bind, LogError, ret; simpl;
    (split; [exists []; split; [by rewrite app_nil_r|simpl; lia]|]);
    (split; [done|]); (split; [done|]); by intros [?|?].
Qed.

(** X19: [createMachine] always returns the empty result.  The counter it
    leaves is the counter it was given plus one exactly when the surge
    allowed the create and the provider accepted it, and is unchanged
    otherwise; a counter within [maxSurge] stays within it; and at
    [maxSurge] or above nothing happens at all. *)
Theorem createMachine_counter logger idx maxSurge surgeCount (w : World P) :
  ∃ surgeCount' err,
    (createMachine logger idx maxSurge surgeCount w).1
    = Returned (surgeCount', (ctrl.zero, err)) ∧
    (surgeCount' = surgeCount + 1 ↔
     surgeCount < maxSurge ∧
     (CreateMachine (provider w) logger (int32 idx)).2 = None) ∧
    (surgeCount' = surgeCount ∨ surgeCount' = surgeCount + 1) ∧
    (surgeCount ≤ maxSurge → surgeCount' ≤ maxSurge) ∧
    (maxSurge ≤ surgeCount →
     createMachine logger idx maxSurge surgeCount w
     = (Returned (surgeCount, (ctrl.zero, None)), w)).
Proof.
  unfold createMachine, bind, ret, callCreateMachine. case_bool_decide as Hs.
  - destruct (CreateMachine (provider w) logger (int32 idx)) as [p [err|]]; simpl;
      eexists _, _; (split; [reflexivity|]); repeat split; try (intros; lia);
      try done; try (by left); try (by right).
    intros [_ Hnone]. discriminate Hnone.
  - simpl. eexists _, _. split; [reflexivity|].
    repeat split; try (intros; lia); try done; by left.
Qed.

(** X23: [deleteMachine] makes exactly one DeleteMachine call, with the
    machine's reference as it is, nil included, and leaves the provider as
    that call left it.  It panics only after the call, when the provider
    reported an error and the reference is nil, since the reference is read
    for the text of the error. *)
Theorem deleteMachine_calls_once logger m namespace idx (w : World P) :
  calls (deleteMachine logger m namespace idx w).2
  = calls w ++ [CallDeleteMachine logger (MachineRef m)] ∧
  provider (deleteMachine logger m namespace idx w).2
  = (DeleteMachine (provider w) logger (MachineRef m)).1 ∧
  ((deleteMachine logger m namespace idx w).1 = Panicked ↔
   MachineRef m = None ∧
   is_Some (DeleteMachine (provider w) logger (MachineRef m)).2).
Proof.
  unfold deleteMachine, bind, callDeleteMachine.
  destruct (DeleteMachine (provider w) logger (MachineRef m)) as [p [err|]]; simpl.
  - destruct (MachineRef m) as [ref|]; simpl.
    + repeat split; try done. by intros [? _].
    + repeat split; try done; by eexists.
  - repeat split; try done. by intros [_ [? ?]].
Qed.

End EntryPoint.

(** ** Errors of the provider *)

Section Errors.
Context {P : Type} `{!MachineProvider P}.

(** X20: when the one call of an invocation fails, the returned error
    wraps the provider's error.  For a create its text names the position
    the logger carries as index; for a delete it names the namespace of the
    reconciler and the name of the machine. *)
Theorem error_message_format r logger cpms obs (w : World P) c cause :
  dispatched (reconcileMachineRollingUpdate r logger cpms obs) w = [c] →
  (answer (provider w) c).2 = Some cause →
  ∃ e,
    (reconcileMachineRollingUpdate r logger cpms obs w).1
    = Returned (ctrl.zero, Some e) ∧
    e = fmt_Errorf_w (Error e) cause ∧
    match c with
    | CallCreateMachine lg _ =>
        ∃ i : nat,
          logger_value "index" lg = Some (LInt (Z.of_nat i)) ∧
          Error e
          = "error creating new Machine for index " +:+ pretty (Z.of_nat i)
              +:+ ": " +:+ Error cause
    | CallDeleteMachine lg ref =>
        ∃ target,
          ref = Some target ∧
          Error e
          = "error deleting Machine " +:+ Namespace r +:+ "/"
              +:+ metav1.Name (ObjectMeta target) +:+ ": " +:+ Error cause
    end.
Proof.
  rewrite engine_calls, engine_decision.
  destruct (deviseExistingSurge cpms _) as [s|]; [|done].
  pose proof (decision_wf (sortMachineInfos obs)) as Hwf.
  destruct (decision (sortMachineInfos obs)) as [i name| |i m mref| | | |];
    simpl; try done.
  - case_bool_decide as Hs; [|done]. intros [= <-]. simpl. intros Hans.
    unfold createMachine, bind, ret, callCreateMachine.
    rewrite bool_decide_true by done.
    destruct (CreateMachine (provider w) _ _) as [p err]. simpl in Hans. subst err.
    simpl. eexists. split; [reflexivity|]. split; [done|].
    exists i. split; [apply logger_value_index|done].
  - intros [= <-]. simpl. intros Hans. simpl in Hwf.
    unfold deleteMachine, bind, callDeleteMachine. rewrite Hwf in *.
    destruct (DeleteMachine (provider w) _ _) as [p err]. simpl in Hans. subst err.
    simpl. eexists. split; [reflexivity|]. split; [done|]. by exists mref.
Qed.

End Errors.

Lemma error_message_format_witness :
  ∃ e,
    (reconcileMachineRollingUpdate reconciler0 logger0
       (cpmsWith (Some 3) machinev1.RollingUpdate) obsS1 (mkWorld 0%nat [] [])).1
    = Returned (ctrl.zero, Some e) ∧
    e = fmt_Errorf_w (Error e) (errors_New "quota exceeded") ∧
    ∃ i : nat,
      logger_value "index"
        (indexLogger reconciler0 logger0
           (cpmsWith (Some 3) machinev1.RollingUpdate) 1 "<Unknown>")
      = Some (LInt (Z.of_nat i)) ∧
      Error e
      = "error creating new Machine for index " +:+ pretty (Z.of_nat i)
          +:+ ": " +:+ Error (errors_New "quota exceeded").
Proof.
  apply (error_message_format reconciler0 logger0
           (cpmsWith (Some 3) machinev1.RollingUpdate) obsS1 (mkWorld 0%nat [] [])
           (CallCreateMachine
              (indexLogger reconciler0 logger0
                 (cpmsWith (Some 3) machinev1.RollingUpdate) 1 "<Unknown>") 1)).
  - by vm_compute.
  - reflexivity.
Defined.

(** On S1 with a provider that rejects the create, the text of the
    returned error. *)
Lemma scenario_S1_create_fails :
  (reconcileMachineRollingUpdate reconciler0 logger0
     (cpmsWith (Some 3) machinev1.RollingUpdate) obsS1 (mkWorld 0%nat [] [])).1
  = Returned
      (ctrl.zero,
       Some (fmt_Errorf_w "error creating new Machine for index 1: quota exceeded"
               (errors_New "quota exceeded"))).
Proof. by vm_compute. Qed.

(** ** The earlier revision *)

Section EarlierRevision.
Context {P : Type} `{!MachineProvider P}.

(** X21: in the earlier revision the entry point groups the machines and
    dispatches on the strategy, but for every strategy value and every
    list of machines it returns the empty result and a nil error, leaves
    the provider and the call trace as they were, and logs only under an
    invalid strategy. *)
Theorem earlier_revision_never_acts r logger cpms machineInfos (w : World P) :
  let ty := machinev1.Type_ (machinev1.Strategy (machinev1.Spec cpms)) in
  ∃ lines,
    updates_go.reconcileMachineUpdates r logger cpms machineInfos w
    = (Returned (ctrl.zero, None),
       mkWorld (provider w) (calls w) (logs w ++ lines)) ∧
    (ty = machinev1.RollingUpdate ∨ ty = machinev1.OnDelete ↔ lines = []).
Proof.
  intros ty. unfold updates_go.reconcileMachineUpdates. fold ty.
  destruct (String.eqb ty machinev1.RollingUpdate) eqn:Hru.
  { exists []. apply String.eqb_eq in Hru. destruct w. rewrite app_nil_r.
    split; [done|]. split; [done|by left]. }
  destruct (String.eqb ty machinev1.OnDelete) eqn:Hod.
  { exists []. apply String.eqb_eq in Hod. destruct w. rewrite app_nil_r.
    split; [done|]. split; [done|by right]. }
  apply String.eqb_neq in Hru, Hod.
  destruct (String.eqb ty machinev1.Recreate);
    (eexists [_]; split; [reflexivity|]); (split; [by intros [?|?]|done]).
Qed.

End EarlierRevision.
